(** * Brick selection and brick polling of glustolibs.gluster.brick_libs

    A shallow embedding of the quorum arithmetic, the randomised brick
    selection and the wait-for-online loop of
    [glustolibs-gluster/glustolibs/gluster/brick_libs.py], with the
    properties the specification states about them. *)

From Stdlib Require Import ZArith Ascii String List Lia.
From stdpp Require Import base option list strings gmap fin_maps.

Local Open Scope Z_scope.

(** ** The Python runtime the module relies on *)

Module Py.

(** The built-in exceptions the modelled code can raise. *)
Inductive exn : Set :=
| KeyError
| TypeError
| ValueError
| IndexError.

(** The values found in the dictionaries the module reads and builds:
    [None], booleans, integers, strings and lists of strings. *)
Inductive val : Set :=
| VNone
| VBool (b : bool)
| VInt (z : Z)
| VStr (s : string)
| VList (l : list string).

(** The interpreter.  The expression [ceil(int(replica_count) / 2)] is the
    one place of the module whose value differs between the two: under
    Python 2 [/] on two ints is floor division, under Python 3 it is true
    division.  The test suite of the repository is Python 2 code (it calls
    [GlusterBaseClass.setUp.im_func]); the properties below are stated for
    both interpreters. *)
Inductive version : Set := Python2 | Python3.

(** A computation in state [S] that returns an [A] or raises. *)
Definition M (S A : Type) : Type := S -> exn + (A * S).

Definition ret {S A} (a : A) : M S A := fun s => inr (a, s).

Definition raise {S A} (e : exn) : M S A := fun _ => inl e.

Definition bind {S A B} (c : M S A) (k : A -> M S B) : M S B :=
  fun s => match c s with
           | inl e => inl e
           | inr (a, s') => k a s'
           end.

(** A pure step that may raise, run inside a stateful computation. *)
Definition lift {S A} (r : exn + A) : M S A :=
  fun s => match r with
           | inl e => inl e
           | inr a => inr (a, s)
           end.

(** [if v:] *)
Definition truthy (v : val) : bool :=
  match v with
  | VNone => false
  | VBool b => b
  | VInt z => negb (z =? 0)
  | VStr s => negb (String.eqb s "")
  | VList l => match l with [] => false | _ => true end
  end.

(** [sub in v] for a string literal [sub]: a substring test on a string,
    membership in a list, [TypeError] on a value that is not iterable. *)
Definition contains (sub : string) (v : val) : exn + bool :=
  match v with
  | VStr s => inr (match String.index 0 sub s with
                    | Some _ => true
                    | None => false
                    end)
  | VList l => inr (existsb (String.eqb sub) l)
  | _ => inl TypeError
  end.

Definition is_blank (c : ascii) : bool :=
  let n := nat_of_ascii c in
  ((9 <=? n)%nat && (n <=? 13)%nat) || (n =? 32)%nat.

Definition digit_of (c : ascii) : option Z :=
  let n := nat_of_ascii c in
  if ((48 <=? n)%nat && (n <=? 57)%nat)%bool
  then Some (Z.of_nat (n - 48)) else None.

Fixpoint lstrip (s : string) : string :=
  match s with
  | String c s' => if is_blank c then lstrip s' else s
  | EmptyString => EmptyString
  end.

(** Reads decimal digits up to trailing blanks; [None] on anything else. *)
Fixpoint digits (started : bool) (acc : Z) (s : string) : option Z :=
  match s with
  | EmptyString => if started then Some acc else None
  | String c s' =>
      match digit_of c with
      | Some d => digits true (10 * acc + d) s'
      | None =>
          if (started && String.eqb (lstrip s) "")%bool then Some acc else None
      end
  end.

(** [int(s)] on a string: blanks, an optional sign, decimal digits, blanks. *)
Definition int_of_str (s : string) : exn + Z :=
  let body sign t :=
    match digits false 0 t with
    | Some z => inr (sign * z)
    | None => inl ValueError
    end in
  match lstrip s with
  | String "-"%char t => body (-1) t
  | String "+"%char t => body 1 t
  | t => body 1 t
  end.

(** [int(v)] *)
Definition int (v : val) : exn + Z :=
  match v with
  | VInt z => inr z
  | VBool b => inr (if b then 1 else 0)
  | VStr s => int_of_str s
  | VNone | VList _ => inl TypeError
  end.

(** [ceil(n / 2)] for an int [n].  Python 2 divides the two ints first
    (floor division) and [ceil] has nothing left to round; Python 3
    rounds the true quotient up.  The result is an integral number in
    both (a float under Python 2, which [random.randint] accepts). *)
Definition ceil_div2 (py : version) (n : Z) : Z :=
  match py with
  | Python2 => n / 2
  | Python3 => (n + 1) / 2
  end.

End Py.

Declare Scope py_scope.
Delimit Scope py_scope with py.
Notation "'let*' x := c 'in' k" := (Py.bind c (fun x => k))
  (at level 10, x name, c at level 100, k at level 200) : py_scope.
Local Open Scope py_scope.

(** ** The [random] module

    The process-wide generator is an explicit source of draws: the
    [cursor]-th draw is [draws cursor].  Every property below is stated for
    all sources, hence for every outcome of the random choices. *)

Module Random.

Record source : Type := { draws : nat -> nat; cursor : nat }.

(** [int(random() * n)]: a number below [n], one draw consumed. *)
Definition randbelow (n : nat) : Py.M source nat :=
  fun r => inr ((draws r (cursor r) mod n)%nat,
                {| draws := draws r; cursor := S (cursor r) |}).

(** [random.randint(a, b)] is [randrange(a, b + 1)]: [ValueError] on an
    empty range. *)
Definition randint (a b : Z) : Py.M source Z :=
  let width := b + 1 - a in
  if 0 <? width then
    let* r := randbelow (Z.to_nat width) in
    Py.ret (a + Z.of_nat r)
  else Py.raise Py.ValueError.

(** [random.shuffle(x)]:
    [for i in reversed(xrange(1, len(x))): j = int(random() * (i+1));
     x[i], x[j] = x[j], x[i]]. *)
Fixpoint shuffle_from {A} (i : nat) (x : list A) : Py.M source (list A) :=
  match i with
  | O => Py.ret x
  | S i' =>
      let* j := randbelow (S i) in
      match x !! i, x !! j with
      | Some xi, Some xj => shuffle_from i' (<[j := xi]> (<[i := xj]> x))
      | _, _ => Py.raise Py.IndexError
      end
  end.

Definition shuffle {A} (x : list A) : Py.M source (list A) :=
  shuffle_from (length x - 1) x.

(** The selection loop of [random.sample] over a copy of the population,
    [n] being the number of items not yet selected:
    [j = int(random() * (n-i)); result[i] = pool[j]; pool[j] = pool[n-i-1]]. *)
Fixpoint sample_pool {A} (k n : nat) (pool : list A) : Py.M source (list A) :=
  match k with
  | O => Py.ret []
  | S k' =>
      let* j := randbelow n in
      match pool !! j, pool !! (n - 1)%nat with
      | Some x, Some y =>
          let* rest := sample_pool k' (n - 1) (<[j := y]> pool) in
          Py.ret (x :: rest)
      | _, _ => Py.raise Py.IndexError
      end
  end.

(** [random.sample(population, k)]: [ValueError] unless [0 <= k <= n].
    CPython runs the loop above for the populations met here (up to 21
    items); for larger ones it draws positions and rejects those already
    taken, which also yields items at [k] distinct positions. *)
Definition sample {A} (population : list A) (k : Z) : Py.M source (list A) :=
  let n := length population in
  if ((0 <=? k) && (k <=? Z.of_nat n))%bool
  then sample_pool (Z.to_nat k) n population
  else Py.raise Py.ValueError.

End Random.

(** ** glustolibs.gluster.brick_libs *)

Module BrickLibs.

Import Py Random.

(** A brick is named ["node:path"]; a subvolume is the list of the bricks
    of one replica or disperse group. *)
Definition Brick : Set := string.
Definition Subvol : Set := list Brick.

(** [for x in l: acc = body(x, acc)] *)
Fixpoint for_each {S A B} (l : list A) (body : A -> B -> M S B) (acc : B)
  : M S B :=
  match l with
  | [] => ret acc
  | x :: l' => let* acc' := body x acc in for_each l' body acc'
  end.

(** *** Answers of the collaborators

    [get_volume_info], [is_tiered_volume], [get_volume_type_info],
    [get_subvols] and [get_client_quorum_info] live in modules outside
    this one; a [cluster] holds what they answer for a node and a volume,
    the same answer at every call made during one selection.  [None]
    stands for the [None] a failed query returns. *)

Record volume_type : Type := {
  typeStr : string;
  replicaCount : val;
  redundancyCount : val
}.

Record hot_tier_type : Type := {
  hotBrickType : string;
  hotreplicaCount : val
}.

Record cold_tier_type : Type := {
  coldBrickType : string;
  coldreplicaCount : val;
  coldredundancyCount : val
}.

Record type_info : Type := {
  volume_type_info : volume_type;
  hot_tier_type_info : hot_tier_type;
  cold_tier_type_info : cold_tier_type
}.

Record subvols : Type := {
  volume_subvols : list Subvol;
  hot_tier_subvols : list Subvol;
  cold_tier_subvols : list Subvol
}.

Record quorum : Type := {
  volume_quorum_info : gmap string val;
  hot_tier_quorum_info : gmap string val;
  cold_tier_quorum_info : gmap string val
}.

Record cluster : Type := {
  get_volume_info : string -> string -> option unit;
  is_tiered_volume : string -> string -> bool;
  get_volume_type_info : string -> string -> option type_info;
  get_subvols : string -> string -> subvols;
  get_client_quorum_info : string -> string -> option quorum
}.

(** Subscripting the answer of a query: [TypeError] on [None]. *)
Definition subscript {S A} (o : option A) : M S A :=
  match o with
  | Some a => ret a
  | None => raise TypeError
  end.

Section Interpreter.

Variable py : version.

(** *** Quorum bound (lines 798-815)

    [Some limit] when the chain of tests assigns [offline_bricks_limit],
    [None] when it logs an error and returns the empty list. *)
Definition offline_bricks_limit {S} (replica_count quorum_type quorum_count : val)
  : M S (option Z) :=
  let* fixed := lift (contains "fixed" quorum_type) in
  if fixed : bool then
    match quorum_count with
    | VNone => ret None
    | _ =>
        let* n := lift (int replica_count) in
        let* c := lift (int quorum_count) in
        ret (Some (n - c))
    end
  else
    let* auto := lift (contains "auto" quorum_type) in
    if auto : bool then
      let* n := lift (int replica_count) in
      ret (Some (ceil_div2 py n))
    else
      match quorum_type with
      | VNone =>
          let* n := lift (int replica_count) in
          ret (Some (n - 1))
      | _ => ret None
      end.

(** The body of the loop over the subvolumes (lines 817-827).
    [random.shuffle] reorders the caller's list in place; the selection is
    then sampled from the reordered list. *)
Definition select_from_subvol (offline_bricks_limit : Z)
    (subvol : Subvol) (list_of_bricks_to_bring_offline : list Brick)
  : M source (list Brick) :=
  let* subvol := shuffle subvol in
  let* random_count := randint 1 offline_bricks_limit in
  let* bricks_to_bring_offline := sample subvol random_count in
  ret (list_of_bricks_to_bring_offline ++ bricks_to_bring_offline).

Definition get_bricks_to_bring_offline_from_replicated_volume
    (subvols_list : list Subvol) (replica_count : val)
    (quorum_info : gmap string val) : M source (list Brick) :=
  match quorum_info !! "is_quorum_applicable",
        quorum_info !! "quorum_type",
        quorum_info !! "quorum_count" with
  | Some is_quorum_applicable, Some quorum_type, Some quorum_count =>
      if truthy is_quorum_applicable then
        let* limit :=
          offline_bricks_limit replica_count quorum_type quorum_count in
        match limit with
        | Some limit => for_each subvols_list (select_from_subvol limit) []
        | None => ret []
        end
      else ret []
  | _, _, _ => ret []
  end.

(** Lines 852-865; [int(redundancy_count)] is evaluated once per group. *)
Definition get_bricks_to_bring_offline_from_disperse_volume
    (subvols_list : list Subvol) (redundancy_count : val)
  : M source (list Brick) :=
  for_each subvols_list
    (fun subvol list_of_bricks_to_bring_offline =>
       let* subvol := shuffle subvol in
       let* limit := lift (int redundancy_count) in
       let* random_count := randint 1 limit in
       let* bricks_to_bring_offline := sample subvol random_count in
       ret (list_of_bricks_to_bring_offline ++ bricks_to_bring_offline))
    [].

Variable c : cluster.

Definition select_volume_bricks_to_bring_offline (mnode volname : string)
  : M source (list Brick) :=
  if is_tiered_volume c mnode volname then ret []
  else
    let* info := subscript (get_volume_type_info c mnode volname) in
    let volume_type := typeStr (volume_type_info info) in
    let volume_subvols := volume_subvols (get_subvols c mnode volname) in
    if String.eqb volume_type "Distribute" then ret []
    else if (String.eqb volume_type "Replicate"
             || String.eqb volume_type "Distributed-Replicate")%bool then
      let volume_replica_count :=
        replicaCount (volume_type_info info) in
      let* quorum_info := subscript (get_client_quorum_info c mnode volname) in
      get_bricks_to_bring_offline_from_replicated_volume
        volume_subvols volume_replica_count (volume_quorum_info quorum_info)
    else if (String.eqb volume_type "Disperse"
             || String.eqb volume_type "Distributed-Disperse")%bool then
      let volume_redundancy_count :=
        redundancyCount (volume_type_info info) in
      get_bricks_to_bring_offline_from_disperse_volume
        volume_subvols volume_redundancy_count
    else ret [].

Definition select_hot_tier_bricks_to_bring_offline (mnode volname : string)
  : M source (list Brick) :=
  if negb (is_tiered_volume c mnode volname) then ret []
  else
    let* info := subscript (get_volume_type_info c mnode volname) in
    let hot_tier_type := hotBrickType (hot_tier_type_info info) in
    let hot_tier_subvols := hot_tier_subvols (get_subvols c mnode volname) in
    let hot_tier_bricks_to_bring_offline : list Brick :=
      if String.eqb hot_tier_type "Distribute" then [] else [] in
    if (String.eqb hot_tier_type "Replicate"
        || String.eqb hot_tier_type "Distributed-Replicate")%bool then
      let hot_tier_replica_count :=
        hotreplicaCount (hot_tier_type_info info) in
      let* quorum_info := subscript (get_client_quorum_info c mnode volname) in
      get_bricks_to_bring_offline_from_replicated_volume
        hot_tier_subvols hot_tier_replica_count
        (hot_tier_quorum_info quorum_info)
    else ret hot_tier_bricks_to_bring_offline.

Definition select_cold_tier_bricks_to_bring_offline (mnode volname : string)
  : M source (list Brick) :=
  if negb (is_tiered_volume c mnode volname) then ret []
  else
    let* info := subscript (get_volume_type_info c mnode volname) in
    let cold_tier_type := coldBrickType (cold_tier_type_info info) in
    let cold_tier_subvols := cold_tier_subvols (get_subvols c mnode volname) in
    if String.eqb cold_tier_type "Distribute" then ret []
    else if (String.eqb cold_tier_type "Replicate"
             || String.eqb cold_tier_type "Distributed-Replicate")%bool then
      let cold_tier_replica_count :=
        coldreplicaCount (cold_tier_type_info info) in
      let* quorum_info := subscript (get_client_quorum_info c mnode volname) in
      get_bricks_to_bring_offline_from_replicated_volume
        cold_tier_subvols cold_tier_replica_count
        (cold_tier_quorum_info quorum_info)
    else if (String.eqb cold_tier_type "Disperse"
             || String.eqb cold_tier_type "Distributed-Disperse")%bool then
      let cold_tier_redundancy_count :=
        coldredundancyCount (cold_tier_type_info info) in
      get_bricks_to_bring_offline_from_disperse_volume
        cold_tier_subvols cold_tier_redundancy_count
    else ret [].

Definition select_tier_volume_bricks_to_bring_offline (mnode volname : string)
  : M source (gmap string val) :=
  let bricks_to_bring_offline : gmap string val :=
    <["cold_tier_bricks" := VList []]> (<["hot_tier_bricks" := VList []]> ∅) in
  match get_volume_info c mnode volname with
  | None => ret bricks_to_bring_offline
  | Some _ =>
      if is_tiered_volume c mnode volname then
        let* hot_tier_bricks :=
          select_hot_tier_bricks_to_bring_offline mnode volname in
        let* cold_tier_bricks :=
          select_cold_tier_bricks_to_bring_offline mnode volname in
        ret (<["cold_tier_bricks" := VList cold_tier_bricks]>
               (<["hot_tier_bricks" := VList hot_tier_bricks]>
                  bricks_to_bring_offline))
      else ret bricks_to_bring_offline
  end.

Definition select_bricks_to_bring_offline (mnode volname : string)
  : M source (gmap string val) :=
  let bricks_to_bring_offline : gmap string val :=
    <["volume_bricks" := VList []]>
      (<["cold_tier_bricks" := VList []]>
         (<["hot_tier_bricks" := VList []]>
            (<["is_tier" := VBool false]> ∅))) in
  match get_volume_info c mnode volname with
  | None => ret bricks_to_bring_offline
  | Some _ =>
      if is_tiered_volume c mnode volname then
        let bricks_to_bring_offline :=
          <["is_tier" := VBool true]> bricks_to_bring_offline in
        select_tier_volume_bricks_to_bring_offline mnode volname
      else
        let* volume_bricks :=
          select_volume_bricks_to_bring_offline mnode volname in
        ret (<["volume_bricks" := VList volume_bricks]>
               bricks_to_bring_offline)
  end.

End Interpreter.

(** *** Brick status and the wait loop

    The state of the cluster as the poller sees it: [slept] is the time
    spent in [time.sleep], [queries] the number of status queries issued
    so far, and [status_at n] what [get_volume_status] answers to the
    [n]-th query ([None] when the status cannot be fetched).  A status
    snapshot is the entry of the volume in the dictionary that
    [get_volume_status] returns: it maps a node and a brick path to the
    brick's ['status'] field. *)

Definition snapshot : Type := gmap string (gmap string val).

Record world : Type := {
  slept : Z;
  queries : nat;
  status_at : nat -> string -> string -> option snapshot
}.

Definition get_volume_status (mnode volname : string)
  : M world (option snapshot) :=
  fun w => inr (status_at w (queries w) mnode volname,
                {| slept := slept w; queries := S (queries w);
                   status_at := status_at w |}).

(** [time.sleep(seconds)] *)
Definition sleep (seconds : Z) : M world unit :=
  fun w => inr (tt, {| slept := slept w + seconds; queries := queries w;
                       status_at := status_at w |}).

(** [s.split(":")] *)
Fixpoint split_colon (s : string) : list string :=
  match s with
  | EmptyString => [EmptyString]
  | String ch s' =>
      if Ascii.eqb ch ":" then EmptyString :: split_colon s'
      else match split_colon s' with
           | x :: r => String ch x :: r
           | [] => [String ch EmptyString]
           end
  end.

(** The result is [True], [False], or [None] when the status cannot be
    fetched.  A brick name without exactly one colon fails to unpack
    ([ValueError]); a brick absent from the snapshot is a [KeyError]. *)
Definition are_bricks_online (mnode volname : string) (bricks_list : list Brick)
  : M world val :=
  let* volume_status := get_volume_status mnode volname in
  match volume_status with
  | None => ret VNone
  | Some volume_status =>
      let* r :=
        for_each bricks_list
          (fun brick (st : bool * list Brick) =>
             let (_rc, offline_bricks_list) := st in
             match split_colon brick with
             | [brick_node; brick_path] =>
                 match volume_status !! brick_node with
                 | Some paths =>
                     match paths !! brick_path with
                     | Some v =>
                         let* status := lift (int v) in
                         if negb (status =? 1)
                         then ret (false, offline_bricks_list ++ [brick])
                         else ret (_rc, offline_bricks_list)
                     | None => raise KeyError
                     end
                 | None => raise KeyError
                 end
             | _ => raise ValueError
             end)
          (true, []) in
      ret (VBool (fst r))
  end.

(** The [while counter < timeout] loop (lines 886-896); the result is the
    [flag] the loop leaves, [None] if [fuel] iterations did not finish it. *)
Fixpoint wait_loop (fuel : nat) (mnode volname : string)
    (all_bricks : list Brick) (timeout counter : Z) : M world (option bool) :=
  match fuel with
  | O => ret None
  | S fuel' =>
      if counter <? timeout then
        let* status := are_bricks_online mnode volname all_bricks in
        if truthy status then ret (Some true)
        else
          let* _ := sleep 10 in
          wait_loop fuel' mnode volname all_bricks timeout (counter + 10)
      else ret (Some false)
  end.

(** [all_bricks] is what [get_all_bricks(mnode, volname)] returned: [None]
    on failure, the list of the names of the bricks otherwise.  Every
    iteration adds 10 to [counter], so [timeout] iterations and one more
    test of the loop condition are enough (see [wait_loop_enough_fuel]). *)
Definition wait_for_bricks_to_be_online (all_bricks : option (list Brick))
    (mnode volname : string) (timeout : Z) : M world (option bool) :=
  match all_bricks with
  | None | Some [] => ret (Some false)
  | Some all_bricks =>
      let* flag :=
        wait_loop (S (Z.to_nat timeout)) mnode volname all_bricks timeout 0 in
      match flag with
      | Some flag => if negb flag then ret (Some false) else ret (Some true)
      | None => ret None
      end
  end.

End BrickLibs.

(** ** Example inputs *)

Module Examples.

Import Py Random BrickLibs.

Definition counting : source := {| draws := fun n => n; cursor := 0 |}.

(** The dictionary [get_client_quorum_info] builds for one volume or tier. *)
Definition quorum_info (applicable type count : val) : gmap string val :=
  <["quorum_count" := count]>
    (<["quorum_type" := type]>
       (<["is_quorum_applicable" := applicable]> ∅)).

Definition two_groups_of_three : list Subvol :=
  [["s1:/b1"; "s2:/b1"; "s3:/b1"]; ["s1:/b2"; "s2:/b2"; "s3:/b2"]]%string.

Definition one_group_of_six : list Subvol :=
  [["s1:/d"; "s2:/d"; "s3:/d"; "s4:/d"; "s5:/d"; "s6:/d"]]%string.

Definition no_quorum : gmap string val := quorum_info (VBool false) VNone VNone.

(** A volume of type [type] that is not tiered, with its replica count,
    its groups and its client quorum. *)
Definition plain_volume (type : string) (replica_count : val)
    (groups : list Subvol) (volume_quorum : gmap string val) : cluster :=
  {| get_volume_info := fun _ _ => Some tt;
     is_tiered_volume := fun _ _ => false;
     get_volume_type_info := fun _ _ =>
       Some {| volume_type_info :=
                 {| typeStr := type; replicaCount := replica_count;
                    redundancyCount := VNone |};
               hot_tier_type_info :=
                 {| hotBrickType := ""; hotreplicaCount := VNone |};
               cold_tier_type_info :=
                 {| coldBrickType := ""; coldreplicaCount := VNone;
                    coldredundancyCount := VNone |} |};
     get_subvols := fun _ _ =>
       {| volume_subvols := groups; hot_tier_subvols := [];
          cold_tier_subvols := [] |};
     get_client_quorum_info := fun _ _ =>
       Some {| volume_quorum_info := volume_quorum;
               hot_tier_quorum_info := no_quorum;
               cold_tier_quorum_info := no_quorum |} |}.

(** A tiered volume: a distributed hot tier of two bricks over a disperse
    cold tier of one group of six bricks with redundancy 2. *)
Definition tiered_volume : cluster :=
  {| get_volume_info := fun _ _ => Some tt;
     is_tiered_volume := fun _ _ => true;
     get_volume_type_info := fun _ _ =>
       Some {| volume_type_info :=
                 {| typeStr := "Tier"; replicaCount := VStr "1";
                    redundancyCount := VStr "0" |};
               hot_tier_type_info :=
                 {| hotBrickType := "Distribute"; hotreplicaCount := VStr "1" |};
               cold_tier_type_info :=
                 {| coldBrickType := "Disperse"; coldreplicaCount := VStr "1";
                    coldredundancyCount := VStr "2" |} |};
     get_subvols := fun _ _ =>
       {| volume_subvols := [];
          hot_tier_subvols := [["h1:/hot"]; ["h2:/hot"]]%string;
          cold_tier_subvols := one_group_of_six |};
     get_client_quorum_info := fun _ _ =>
       Some {| volume_quorum_info := no_quorum;
               hot_tier_quorum_info := no_quorum;
               cold_tier_quorum_info := no_quorum |} |}.


Definition unreachable : world :=
  {| slept := 0; queries := 0; status_at := fun _ _ _ => None |}.

(** The status of a volume with the single brick ["s1:/b"]. *)
Definition one_brick (status : val) : snapshot :=
  {[ "s1"%string := {[ "/b"%string := status ]} ]}.

Definition brick_down : world :=
  {| slept := 0; queries := 0;
     status_at := fun _ _ _ => Some (one_brick (VStr "0")) |}.

Definition brick_up : world :=
  {| slept := 0; queries := 0;
     status_at := fun _ _ _ => Some (one_brick (VStr "1")) |}.

End Examples.

(** ** Vocabulary of the statements *)

Module Vocabulary.

Import Py Random BrickLibs.

(** What one pass of the loop body takes out of a group: between one and
    [limit] bricks, at distinct positions of the group. *)
Definition group_pick (limit : Z) (g p : list Brick) : Prop :=
  1 <= Z.of_nat (length p) <= limit /\ p ⊆+ g.

(** The world after [polls] more status queries and [seconds] more
    seconds of sleep. *)
Definition advance (polls : nat) (seconds : Z) (w : world) : world :=
  {| slept := slept w + seconds; queries := (queries w + polls)%nat;
     status_at := status_at w |}.

(** From the world [w] on, no poll finds all the bricks online: each
    [are_bricks_online] answers [False] or [None]. *)
Definition never_online (mnode volname : string) (bricks : list Brick)
    (w : world) : Prop :=
  forall (n : nat) (t : Z), (queries w <= n)%nat ->
    exists status,
      are_bricks_online mnode volname bricks
        {| slept := t; queries := n; status_at := status_at w |}
      = inr (status,
             {| slept := t; queries := S n; status_at := status_at w |}) /\
      truthy status = false.

End Vocabulary.

(** ** The brick lists of a volume

    What [get_volume_info] answers: a dictionary from the volume name to
    the volume's entry.  An entry and its sub-dictionaries are records
    whose fields are the keys the module reads; [None] in a field stands
    for an absent key. *)

Module VolumeInfo.

Import Py BrickLibs.

Record brick_info : Type := { name : option string }.

(** The ['hotBricks'] and ['coldBricks'] sections. *)
Record tier_section : Type := { tier_brick : option (list brick_info) }.

Record bricks_section : Type := {
  brick : option (list brick_info);
  hotBricks : option tier_section;
  coldBricks : option tier_section
}.

Record volume : Type := {
  typeStr : option string;
  bricks : option bricks_section
}.

(** [volinfo[volname]['typeStr']] *)
Definition type_of (volinfo : gmap string volume) (volname : string)
  : exn + (volume * string) :=
  match volinfo !! volname with
  | Some v =>
      match typeStr v with
      | Some t => inr (v, t)
      | None => inl KeyError
      end
  | None => inl KeyError
  end.

(** The loop [for brick in ...: if 'name' in brick: l.append(brick['name'])
    else: return None]. *)
Fixpoint brick_names (l : list brick_info) (acc : list Brick)
  : option (list Brick) :=
  match l with
  | [] => Some acc
  | b :: l' =>
      match name b with
      | Some n => brick_names l' (acc ++ [n])
      | None => None
      end
  end.

Section Queries.

(** The answer of [get_volume_info] for a node and a volume, [None] on
    failure; the same at every call. *)
Variable get_volume_info : string -> string -> option (gmap string volume).

(** Lines 79-117. *)
Definition get_hot_tier_bricks (mnode volname : string)
  : exn + option (list Brick) :=
  match get_volume_info mnode volname with
  | None => inr None
  | Some volinfo =>
      match type_of volinfo volname with
      | inl e => inl e
      | inr (v, t) =>
          match contains "Tier" (VStr t) with
          | inl e => inl e
          | inr false => inr None
          | inr true =>
              match bricks v with
              | Some bs =>
                  match hotBricks bs with
                  | Some hot =>
                      match tier_brick hot with
                      | Some l => inr (brick_names l [])
                      | None => inr None
                      end
                  | None => inr (Some [])
                  end
              | None => inr None
              end
          end
      end
  end.

(** Lines 120-158. *)
Definition get_cold_tier_bricks (mnode volname : string)
  : exn + option (list Brick) :=
  match get_volume_info mnode volname with
  | None => inr None
  | Some volinfo =>
      match type_of volinfo volname with
      | inl e => inl e
      | inr (v, t) =>
          match contains "Tier" (VStr t) with
          | inl e => inl e
          | inr false => inr None
          | inr true =>
              match bricks v with
              | Some bs =>
                  match coldBricks bs with
                  | Some cold =>
                      match tier_brick cold with
                      | Some l => inr (brick_names l [])
                      | None => inr None
                      end
                  | None => inr (Some [])
                  end
              | None => inr None
              end
          end
      end
  end.

(** Lines 30-76. *)
Definition get_all_bricks (mnode volname : string)
  : exn + option (list Brick) :=
  match get_volume_info mnode volname with
  | None => inr None
  | Some volinfo =>
      match type_of volinfo volname with
      | inl e => inl e
      | inr (v, t) =>
          match contains "Tier" (VStr t) with
          | inl e => inl e
          | inr true =>
              match get_hot_tier_bricks mnode volname with
              | inl e => inl e
              | inr None => inr None
              | inr (Some hot_tier_bricks) =>
                  match get_cold_tier_bricks mnode volname with
                  | inl e => inl e
                  | inr None => inr None
                  | inr (Some cold_tier_bricks) =>
                      inr (Some (hot_tier_bricks ++ cold_tier_bricks))
                  end
              end
          | inr false =>
              match bricks v with
              | Some bs =>
                  match brick bs with
                  | Some l => inr (brick_names l [])
                  | None => inr None
                  end
              | None => inr None
              end
          end
      end
  end.

(** [volume_status[volname][brick_node][brick_path]['status']] read as an
    int, after [brick.split(":")]. *)
Definition brick_status (volume_status : snapshot) (brick : Brick)
  : exn + Z :=
  match split_colon brick with
  | [brick_node; brick_path] =>
      match volume_status !! brick_node with
      | Some paths =>
          match paths !! brick_path with
          | Some v => int v
          | None => inl KeyError
          end
      | None => inl KeyError
      end
  | _ => inl ValueError
  end.

(** Lines 341-373: as [are_bricks_online], with the test
    [status != 0]. *)
Definition are_bricks_offline (mnode volname : string)
    (bricks_list : list Brick) : M world val :=
  let* volume_status := get_volume_status mnode volname in
  match volume_status with
  | None => ret VNone
  | Some volume_status =>
      let* r :=
        for_each bricks_list
          (fun brick (st : bool * list Brick) =>
             let (_rc, online_bricks_list) := st in
             let* status := lift (brick_status volume_status brick) in
             if negb (status =? 0)
             then ret (false, online_bricks_list ++ [brick])
             else ret (_rc, online_bricks_list))
          (true, []) in
      ret (VBool (fst r))
  end.

(** [for brick in bricks_list] over what [get_all_bricks] returned:
    [None] is not iterable. *)
Definition iterate {S} (r : exn + option (list Brick)) : M S (list Brick) :=
  match r with
  | inl e => raise e
  | inr None => raise TypeError
  | inr (Some l) => ret l
  end.

(** Lines 412-437. *)
Definition get_offline_bricks_list (mnode volname : string)
  : M world (option (list Brick)) :=
  let* volume_status := get_volume_status mnode volname in
  match volume_status with
  | None => ret None
  | Some volume_status =>
      let* bricks_list := iterate (get_all_bricks mnode volname) in
      let* offline_bricks_list :=
        for_each bricks_list
          (fun brick offline_bricks_list =>
             let* status := lift (brick_status volume_status brick) in
             if negb (status =? 1)
             then ret (offline_bricks_list ++ [brick])
             else ret offline_bricks_list)
          [] in
      ret (Some offline_bricks_list)
  end.

(** Lines 440-469: the lookup of the status is inside
    [try: ... except KeyError: continue]; the split is not. *)
Definition get_online_bricks_list (mnode volname : string)
  : M world (option (list Brick)) :=
  let* volume_status := get_volume_status mnode volname in
  match volume_status with
  | None => ret None
  | Some volume_status =>
      let* bricks_list := iterate (get_all_bricks mnode volname) in
      let* online_bricks_list :=
        for_each bricks_list
          (fun brick online_bricks_list =>
             match split_colon brick with
             | [_; _] =>
                 match brick_status volume_status brick with
                 | inl KeyError => ret online_bricks_list
                 | inl e => raise e
                 | inr status =>
                     if status =? 1
                     then ret (online_bricks_list ++ [brick])
                     else ret online_bricks_list
                 end
             | _ => raise ValueError
             end)
          [] in
      ret (Some online_bricks_list)
  end.

End Queries.

End VolumeInfo.

(** ** Commands run on the nodes

    [g.run(node, cmd)] returns the exit status, the output and the error
    output of the command.  A [host] records the commands issued so far,
    the time spent in [time.sleep] and the random source; [respond] is
    what the cluster answers to a command, given the commands issued
    before it. *)

Module Host.

Import Py Random BrickLibs.

Record host : Type := {
  rng : source;
  issued : list (string * string);
  elapsed : Z;
  respond : list (string * string) -> string -> string -> Z * string * string
}.

(** [g.run(node, cmd)] *)
Definition run (node cmd : string) : M host (Z * string * string) :=
  fun h => inr (respond h (issued h) node cmd,
                {| rng := rng h; issued := issued h ++ [(node, cmd)];
                   elapsed := elapsed h; respond := respond h |}).

(** [time.sleep(seconds)] *)
Definition sleep (seconds : Z) : M host unit :=
  fun h => inr (tt, {| rng := rng h; issued := issued h;
                       elapsed := elapsed h + seconds;
                       respond := respond h |}).

(** A computation on the random source, run on the host's source. *)
Definition draw {A} (c : M source A) : M host A :=
  fun h => match c (rng h) with
           | inl e => inl e
           | inr (a, r) =>
               inr (a, {| rng := r; issued := issued h;
                          elapsed := elapsed h; respond := respond h |})
           end.

(** [random.choice(seq)] is [seq[int(random() * len(seq))]]: [IndexError]
    on an empty sequence. *)
Definition choice {A} (seq : list A) : M source A :=
  let* j := randbelow (length seq) in
  match seq !! j with
  | Some a => ret a
  | None => raise IndexError
  end.

Definition newline : ascii := ascii_of_nat 10.

(** [s.rstrip(chars)] for the characters that [strip_it] accepts. *)
Fixpoint rstrip_with (strip_it : ascii -> bool) (s : string) : string :=
  match s with
  | EmptyString => EmptyString
  | String ch s' =>
      match rstrip_with strip_it s' with
      | EmptyString => if strip_it ch then EmptyString
                       else String ch EmptyString
      | rest => String ch rest
      end
  end.

Fixpoint lstrip_with (strip_it : ascii -> bool) (s : string) : string :=
  match s with
  | String ch s' => if strip_it ch then lstrip_with strip_it s' else s
  | EmptyString => EmptyString
  end.

(** [s.strip("\n")] and [s.strip()] *)
Definition strip_with (strip_it : ascii -> bool) (s : string) : string :=
  rstrip_with strip_it (lstrip_with strip_it s).

Definition strip_newlines : string -> string :=
  strip_with (Ascii.eqb newline).

Definition strip : string -> string := strip_with is_blank.

(** [len(s.split())]: the number of maximal runs of non-blank
    characters; [in_word] tells whether the previous character was one. *)
Fixpoint count_words (in_word : bool) (s : string) : nat :=
  match s with
  | EmptyString => O
  | String ch s' =>
      if is_blank ch then count_words false s'
      else if in_word then count_words true s'
      else S (count_words true s')
  end.

(** [s.replace("/", "-")] *)
Fixpoint replace_slash (s : string) : string :=
  match s with
  | EmptyString => EmptyString
  | String ch s' =>
      String (if Ascii.eqb ch "/" then "-"%char else ch) (replace_slash s')
  end.

End Host.

(** ** The commands of brick_libs *)

Module BrickCommands.

Import Py Random BrickLibs Host.


(** [node, _ = brick.split(":")] for every brick. *)
Definition node_of (brick : Brick) (node_list : list string)
  : M host (list string) :=
  match split_colon brick with
  | [node; _] => ret (node_list ++ [node])
  | _ => raise ValueError
  end.

Definition pgrep : string := "pgrep glusterfsd".

Definition socket_of_volume (volname brick_node : string) : string :=
  "ps -eaf | grep glusterfsd |  grep " +:+ volname +:+ "." +:+ brick_node
  +:+ " | grep -o '/var/run/gluster/.*' |  awk '{ print $3 }' | grep -v 'awk' ".

Definition socket_of_any : string :=
  "ps -eaf | grep glusterfsd | grep -o '/var/run/gluster.*' |  awk '{ print $3 }' | grep -v 'awk'".

Definition detach_brick (uds_path brick_path : string) : string :=
  "gf_attach -d " +:+ uds_path +:+ " " +:+ brick_path.

Definition kill_brick (brick_node brick_path : string) : string :=
  "pid=`ps -ef | grep -ve 'grep' | grep -e '" +:+ brick_node +:+ brick_path
  +:+ ".pid' | awk '{print $2}'` && kill -15 $pid || kill -9 $pid".

(** The loop of the brick-multiplexing branch (lines 196-217). *)
Definition detach_one (volname : string) (brick : Brick) (_rc : bool)
  : M host bool :=
  match split_colon brick with
  | [brick_node; brick_path] =>
      let* r := run brick_node pgrep in
      let cmd :=
        if (1 <? count_words false (snd (fst r)))%nat
        then socket_of_volume volname brick_node
        else socket_of_any in
      let* r := run brick_node cmd in
      let uds_path := strip (snd (fst r)) in
      let* r := run brick_node (detach_brick uds_path brick_path) in
      if negb (fst (fst r) =? 0) then ret false else ret _rc
  | _ => raise ValueError
  end.

(** The loop of the other branch (lines 229-247): [Some _rc] when the loop
    ends, [None] when an invalid method makes the function return
    [False]. *)
Fixpoint kill_each (methods : list string) (bricks_list : list Brick)
    (_rc : bool) : M host (option bool) :=
  match bricks_list with
  | [] => ret (Some _rc)
  | brick :: rest =>
      let* bring_brick_offline_method := draw (choice methods) in
      if String.eqb bring_brick_offline_method "service_kill" then
        match split_colon brick with
        | [brick_node; brick_path] =>
            let brick_path := replace_slash brick_path in
            let* r := run brick_node (kill_brick brick_node brick_path) in
            if negb (fst (fst r) =? 0)
            then kill_each methods rest false
            else kill_each methods rest _rc
        | _ => raise ValueError
        end
      else ret None
  end.

Section Multiplexing.

(** The answer of [is_brick_mux_enabled] for a node; the commands it runs
    to find out are not recorded. *)
Variable is_brick_mux_enabled : string -> bool.

(** Lines 161-255.  The methods are [None], one method or a list of
    methods; the bricks are one brick or a list of bricks. *)
Definition bring_bricks_offline (volname : string)
    (bricks_list : string + list Brick)
    (bring_bricks_offline_methods : option (string + list string))
  : M host bool :=
  let bring_bricks_offline_methods :=
    match bring_bricks_offline_methods with
    | None => ["service_kill"%string]
    | Some (inl method) => [method]
    | Some (inr methods) => methods
    end in
  let bricks_list :=
    match bricks_list with
    | inl brick => [brick]
    | inr bricks => bricks
    end in
  let* node_list := for_each bricks_list node_of [] in
  match node_list !! 0%nat with
  | None => raise IndexError
  | Some node =>
      if is_brick_mux_enabled node then
        let* _rc := for_each bricks_list (detach_one volname) true in
        if negb _rc then ret false else ret true
      else
        let* _rc := kill_each bring_bricks_offline_methods bricks_list true in
        match _rc with
        | None => ret false
        | Some _rc => if negb _rc then ret false else ret true
        end
  end.

Definition start_force (volname : string) : string :=
  "gluster volume start " +:+ volname +:+ " force".

(** The loop of [bring_bricks_online] (lines 292-334): [Some _rc] when the
    loop ends or breaks, [None] when an invalid method makes the function
    return [False]. *)
Fixpoint online_each (mnode volname : string) (methods : list string)
    (bricks_list : list Brick) (_rc : bool) : M host (option bool) :=
  match bricks_list with
  | [] => ret (Some _rc)
  | brick :: rest =>
      let* bring_brick_online_method := draw (choice methods) in
      if is_brick_mux_enabled mnode then
        let* r := run mnode (start_force volname) in
        if negb (fst (fst r) =? 0)
        then online_each mnode volname methods rest false
        else online_each mnode volname methods rest _rc
      else if String.eqb bring_brick_online_method "glusterd_restart" then
        match split_colon brick with
        | [brick_node; _] =>
            let* r := run brick_node "service glusterd restart" in
            if negb (fst (fst r) =? 0)
            then online_each mnode volname methods rest false
            else online_each mnode volname methods rest _rc
        | _ => raise ValueError
        end
      else if String.eqb bring_brick_online_method "volume_start_force" then
        let* r := run mnode (start_force volname) in
        if negb (fst (fst r) =? 0)
        then online_each mnode volname methods rest false
        else ret (Some _rc)
      else ret None
  end.

(** Lines 258-338. *)
Definition bring_bricks_online (mnode volname : string)
    (bricks_list : list Brick)
    (bring_bricks_online_methods : option (string + list string))
  : M host bool :=
  let bring_bricks_online_methods :=
    match bring_bricks_online_methods with
    | None => ["glusterd_restart"; "volume_start_force"]%string
    | Some (inl method) => [method]
    | Some (inr methods) => methods
    end in
  let* _rc :=
    online_each mnode volname bring_bricks_online_methods bricks_list true in
  match _rc with
  | None => ret false
  | Some _rc =>
      let* _ := sleep 30 in
      ret _rc
  end.

End Multiplexing.

End BrickCommands.

(** ** glustolibs.gluster.tiering_ops *)

Module TieringOps.

Import Py BrickLibs Host.

(** An element of a parsed XML document: its tag, its text and its
    children. *)
#[local] Unset Elimination Schemes.
Inductive element : Type :=
| Element (tag : string) (text : option string) (children : list element).

#[local] Set Elimination Schemes.

Definition tag (e : element) : string :=
  match e with Element t _ _ => t end.

Definition text (e : element) : option string :=
  match e with Element _ t _ => t end.

Definition children (e : element) : list element :=
  match e with Element _ _ c => c end.

(** The values of the dictionary of a detach status: the text of an
    element, the dictionary of the aggregate, the list of the dictionaries
    of the nodes. *)
Inductive tier_value : Type :=
| Text (t : option string)
| Info (d : gmap string (option string))
| Nodes (l : list (gmap string (option string))).

(** [for elmt in element.getchildren(): status_info[elmt.tag] = elmt.text] *)
Definition status_info (e : element) : gmap string (option string) :=
  foldl (fun d elmt => <[tag elmt := text elmt]> d) ∅ (children e).

(** One round of the inner loop of [get_detach_tier_status] (lines
    416-428).  [tier_status["node"].append] needs the key to hold a list. *)
Definition add_element (tier_status : gmap string tier_value) (e : element)
  : exn + gmap string tier_value :=
  if String.eqb (tag e) "node" then
    match tier_status !! "node" with
    | Some (Nodes l) =>
        inr (<["node" := Nodes (l ++ [status_info e])]> tier_status)
    | Some _ => inl TypeError
    | None => inl KeyError
    end
  else if String.eqb (tag e) "aggregate" then
    inr (<["aggregate" := Info (status_info e)]> tier_status)
  else inr (<[tag e := Text (text e)]> tier_status).

Fixpoint add_elements (tier_status : gmap string tier_value)
    (l : list element) : exn + gmap string tier_value :=
  match l with
  | [] => inr tier_status
  | e :: l' =>
      match add_element tier_status e with
      | inl x => inl x
      | inr tier_status' => add_elements tier_status' l'
      end
  end.

(** [root.findall("volDetachTier")]: the children of the root with that
    tag, in document order. *)
Definition findall (path : string) (root : element) : list element :=
  List.filter (fun e => String.eqb (tag e) path) (children root).

(** The dictionary built from the parsed output (lines 414-429). *)
Definition tier_status_of (root : element)
  : exn + gmap string tier_value :=
  add_elements (<["node" := Nodes []]> ∅)
    (List.concat (List.map children (findall "volDetachTier" root))).

Definition detach_status (volname : string) : string :=
  "gluster volume tier " +:+ volname +:+ " detach status --xml".

Section Parser.

(** [etree.XML]: the root of the document, [None] on a parse error. *)
Variable XML : string -> option element.

(** Lines 377-430. *)
Definition get_detach_tier_status (mnode volname : string)
  : M host (option (gmap string tier_value)) :=
  let* r := run mnode (detach_status volname) in
  if negb (fst (fst r) =? 0) then ret None
  else
    match XML (snd (fst r)) with
    | None => ret None
    | Some root =>
        let* tier_status := lift (tier_status_of root) in
        ret (Some tier_status)
    end.

(** How the loop of [wait_for_detach_tier_to_complete] ends: by
    [return b], or by leaving the loop with [flag]. *)
Inductive loop_exit : Set :=
| Returned (b : bool)
| Left (flag : bool).

(** [status_info['aggregate']['statusStr']] *)
Definition aggregate_status (status_info : gmap string tier_value)
  : exn + option string :=
  match status_info !! "aggregate" with
  | Some (Info d) =>
      match d !! "statusStr" with
      | Some status => inr status
      | None => inl KeyError
      end
  | Some _ => inl TypeError
  | None => inl KeyError
  end.

(** [status == 'completed'], the status being a string or [None]. *)
Definition is_completed (status : option string) : bool :=
  match status with
  | Some s => String.eqb s "completed"
  | None => false
  end.

(** Lines 545-558; [None] if [fuel] iterations did not finish the loop. *)
Fixpoint detach_loop (fuel : nat) (mnode volname : string)
    (timeout count : Z) : M host (option loop_exit) :=
  match fuel with
  | O => ret None
  | S fuel' =>
      if count <? timeout then
        let* status_info := get_detach_tier_status mnode volname in
        match status_info with
        | None => ret (Some (Returned false))
        | Some status_info =>
            let* status := lift (aggregate_status status_info) in
            if is_completed status then ret (Some (Left true))
            else
              let* _ := sleep 10 in
              detach_loop fuel' mnode volname timeout (count + 10)
        end
      else ret (Some (Left false))
  end.

(** Lines 529-565. *)
Definition wait_for_detach_tier_to_complete (mnode volname : string)
    (timeout : Z) : M host (option bool) :=
  let* exit := detach_loop (S (Z.to_nat timeout)) mnode volname timeout 0 in
  match exit with
  | Some (Returned b) => ret (Some b)
  | Some (Left flag) => if negb flag then ret (Some false) else ret (Some true)
  | None => ret None
  end.

End Parser.

Definition tier_pid (volname : string) : string :=
  "ps -ef | grep -v grep | grep '/var/log/glusterfs/" +:+ volname
  +:+ "-tier.log' |awk '{print $2}'".

(** Lines 981-1003. *)
Definition get_tier_pid (mnode volname : string) : M host (option string) :=
  let* r := run mnode (tier_pid volname) in
  if negb (fst (fst r) =? 0) then ret None
  else ret (Some (strip_newlines (snd (fst r)))).

(** Lines 1006-1024: [pid == ''] is false for [None]. *)
Definition is_tier_process_running (mnode volname : string) : M host bool :=
  let* pid := get_tier_pid mnode volname in
  match pid with
  | Some EmptyString => ret false
  | _ => ret true
  end.

End TieringOps.

(** ** Vocabulary of the further statements *)

Module MoreVocabulary.

Import Py Random BrickLibs Vocabulary VolumeInfo Host TieringOps.

(** The statuses of the bricks of a list in a snapshot, or the error the
    first brick without a readable status raises. *)
Fixpoint statuses (volume_status : snapshot) (bricks : list Brick)
  : exn + list Z :=
  match bricks with
  | [] => inr []
  | b :: bs =>
      match brick_status volume_status b with
      | inl e => inl e
      | inr z =>
          match statuses volume_status bs with
          | inl e => inl e
          | inr zs => inr (z :: zs)
          end
      end
  end.

(** The brick is listed in the snapshot with the status [z]. *)
Definition has_status (volume_status : snapshot) (z : Z) (b : Brick) : bool :=
  match brick_status volume_status b with
  | inr z' => z' =? z
  | inl _ => false
  end.

(** The entry of a brick has the key ['name']. *)
Definition has_name (b : brick_info) : bool :=
  match name b with
  | Some _ => true
  | None => false
  end.

(** The entries of the ['hotBricks'] or ['coldBricks'] section: none when
    the section is absent, [None] when it has no ['brick'] key. *)
Definition section_entries (section : option tier_section)
  : option (list brick_info) :=
  match section with
  | None => Some []
  | Some sec => tier_brick sec
  end.

(** The [n]-th status query finds a brick not online or fails; the
    [n]-th status query finds every brick online. *)
Definition not_online_at (status : nat -> string -> string -> option snapshot)
    (mnode volname : string) (bricks : list Brick) (n : nat) : Prop :=
  forall t : Z, exists st,
    are_bricks_online mnode volname bricks
      {| slept := t; queries := n; status_at := status |}
    = inr (st, {| slept := t; queries := S n; status_at := status |}) /\
    truthy st = false.

Definition online_at (status : nat -> string -> string -> option snapshot)
    (mnode volname : string) (bricks : list Brick) (n : nat) : Prop :=
  forall t : Z,
    are_bricks_online mnode volname bricks
      {| slept := t; queries := n; status_at := status |}
    = inr (VBool true, {| slept := t; queries := S n; status_at := status |}).

(** The dictionary [select_bricks_to_bring_offline] starts from. *)
Definition default_selection : gmap string val :=
  <["volume_bricks" := VList []]>
    (<["cold_tier_bricks" := VList []]>
       (<["hot_tier_bricks" := VList []]>
          (<["is_tier" := VBool false]> ∅))).

(** The host after the commands [cmds] and [seconds] seconds of sleep. *)
Definition after (cmds : list (string * string)) (seconds : Z) (h : host)
  : host :=
  {| rng := rng h; issued := issued h ++ cmds;
     elapsed := elapsed h + seconds; respond := respond h |}.

(** The elements under the [volDetachTier] elements of a document. *)
Definition detach_elements (root : element) : list element :=
  List.concat (List.map children (findall "volDetachTier" root)).

Definition with_tag (t : string) (e : element) : bool :=
  String.eqb (tag e) t.

(** What one detach status query finds when the commands [log] were
    issued before it: [None] when the command fails or its output does not
    parse, else the status string of the aggregate. *)
Definition detach_poll (XML : string -> option element) (h : host)
    (mnode volname : string) (log : list (string * string))
  : exn + option (option string) :=
  let r := respond h log mnode (detach_status volname) in
  if negb (fst (fst r) =? 0) then inr None
  else
    match XML (snd (fst r)) with
    | None => inr None
    | Some root =>
        match tier_status_of root with
        | inl e => inl e
        | inr tier_status =>
            match aggregate_status tier_status with
            | inl e => inl e
            | inr status => inr (Some status)
            end
        end
    end.

(** The detach status queries issued by [k] polls. *)
Definition detach_polls (mnode volname : string) (k : nat)
  : list (string * string) :=
  replicate k (mnode, detach_status volname).

(** Every character of the string passes the test. *)
Fixpoint all_chars (test : ascii -> bool) (s : string) : bool :=
  match s with
  | EmptyString => true
  | String ch s' => test ch && all_chars test s'
  end.

(** The node and the path of a brick named ["node:path"]. *)
Definition brick_parts (b : Brick) : option (string * string) :=
  match split_colon b with
  | [node; path] => Some (node, path)
  | _ => None
  end.


Definition kill_of (b : Brick) : list (string * string) :=
  match brick_parts b with
  | Some (node, path) =>
      [(node, BrickCommands.kill_brick node (replace_slash path))]
  | None => []
  end.

(** The host after [k] random draws. *)
Definition drawn (k : nat) (h : host) : host :=
  {| rng := {| draws := draws (rng h); cursor := (cursor (rng h) + k)%nat |};
     issued := issued h; elapsed := elapsed h; respond := respond h |}.

End MoreVocabulary.

(** ** Further example inputs *)

Module MoreExamples.

Import Py Random BrickLibs Vocabulary VolumeInfo Host TieringOps.

Definition named (n : string) : brick_info := {| name := Some n |}.

(** The volume info of ["testvol"], a volume of type ['Distribute'] with
    the bricks ["s1:/b"] and ["s2:/b"]. *)
Definition two_brick_volume (mnode volname : string)
  : option (gmap string volume) :=
  Some {[ "testvol"%string :=
            {| typeStr := Some "Distribute"%string;
               bricks := Some {| brick := Some [named "s1:/b"; named "s2:/b"];
                                 hotBricks := None; coldBricks := None |} |} ]}.

(** The volume info of ["testvol"], a tiered volume with the hot brick
    ["h1:/hot"] and the cold bricks ["s1:/b"] and ["s2:/b"]. *)
Definition tiered_info (mnode volname : string)
  : option (gmap string volume) :=
  Some {[ "testvol"%string :=
            {| typeStr := Some "Tier"%string;
               bricks :=
                 Some {| brick := None;
                         hotBricks :=
                           Some {| tier_brick := Some [named "h1:/hot"] |};
                         coldBricks :=
                           Some {| tier_brick :=
                                     Some [named "s1:/b"; named "s2:/b"] |}
                      |} |} ]}.

(** The volume info of a tiered volume whose bricks section has neither
    ['hotBricks'] nor ['coldBricks']. *)
Definition tier_without_sections (mnode volname : string)
  : option (gmap string volume) :=
  Some {[ "testvol"%string :=
            {| typeStr := Some "Tier"%string;
               bricks := Some {| brick := None; hotBricks := None;
                                 coldBricks := None |} |} ]}.

(** ["s1:/b"] is online and ["s2:/b"] is offline. *)
Definition one_up_one_down : world :=
  {| slept := 0; queries := 0;
     status_at := fun _ _ _ =>
       Some (<["s2"%string := {["/b"%string := VStr "0"]}]>
               (Examples.one_brick (VStr "1"))) |}.

(** ["s1:/b"] is online and ["s2:/b"] is not in the status. *)
Definition one_up_one_absent : world := Examples.brick_up.

(** A detach status document whose node and aggregate report
    [status]. *)
Definition status_document (status : string) : element :=
  Element "cliOutput" None
    [Element "volDetachTier" None
       [Element "nodeCount" (Some "1"%string) [];
        Element "node" None
          [Element "nodeName" (Some "localhost"%string) [];
           Element "statusStr" (Some status) []];
        Element "aggregate" None
          [Element "statusStr" (Some status) []]]].

(** A stand-in for the XML parser: the empty output does not parse, the
    output ["bare"] is a document without aggregate, any other output is
    the document reporting it as the status. *)
Definition toy_xml (out : string) : option element :=
  if String.eqb out "" then None
  else if String.eqb out "bare" then
    Some (Element "cliOutput" None
            [Element "volDetachTier" None
               [Element "nodeCount" (Some "0"%string) []]])
  else Some (status_document out).

(** A host that has issued no command yet and answers [answer log] to a
    command issued after the commands [log]. *)
Definition fresh_host (answer : list (string * string) -> Z * string * string)
  : host :=
  {| rng := Examples.counting; issued := []; elapsed := 0;
     respond := fun log _ _ => answer log |}.

(** The detach completes at the third query; the detach never completes;
    the third query fails. *)
Definition completes_at_third (log : list (string * string))
  : Z * string * string :=
  if (length log <? 2)%nat then (0, "in progress", "")%string
  else (0, "completed", "")%string.

Definition never_completes (log : list (string * string))
  : Z * string * string := (0, "in progress", "")%string.

Definition fails_at_third (log : list (string * string))
  : Z * string * string :=
  if (length log <? 2)%nat then (0, "in progress", "")%string
  else (1, "", "error")%string.

End MoreExamples.

(** Case analysis on a [match] whose scrutinee holds no other [match]. *)
Ltac case_innermost :=
  match goal with
  | |- context [match ?x with _ => _ end] =>
      lazymatch x with
      | context [match _ with _ => _ end] => fail
      | _ => destruct x
      end
  end.


(** ** Properties of the runtime model *)

Module RandomFacts.

Import Py Random.

Lemma randbelow_spec (n : nat) (r : source) :
  (0 < n)%nat ->
  exists j, (j < n)%nat /\
    randbelow n r = inr (j, {| draws := draws r; cursor := S (cursor r) |}).
Proof.
  intros Hn. exists (draws r (cursor r) mod n)%nat. split; [|reflexivity].
  apply Nat.mod_upper_bound. lia.
Qed.

Lemma randint_spec (a b : Z) (r : source) :
  a <= b ->
  exists v r', randint a b r = inr (v, r') /\ a <= v <= b.
Proof.
  intros Hab. unfold randint.
  destruct (Z.ltb_spec 0 (b + 1 - a)) as [Hw|Hw]; [|lia].
  unfold bind. destruct (randbelow_spec (Z.to_nat (b + 1 - a)) r) as (j & Hj & ->).
  { lia. }
  eexists _, _. split; [reflexivity|]. lia.
Qed.

Lemma randint_empty (a b : Z) (r : source) :
  b < a -> randint a b r = inl ValueError.
Proof.
  intros Hab. unfold randint.
  destruct (Z.ltb_spec 0 (b + 1 - a)) as [Hw|Hw]; [lia|reflexivity].
Qed.

Section Lists.

Context {A : Type}.
Implicit Types x pool : list A.

Lemma shuffle_from_spec (i : nat) x (r : source) :
  (i = 0 \/ i < length x)%nat ->
  exists x' r', shuffle_from i x r = inr (x', r') /\ x' ≡ₚ x.
Proof.
  revert x r. induction i as [|i IH]; intros x r Hi; simpl.
  - eexists _, _. split; [reflexivity|done].
  - destruct Hi as [Hi|Hi]; [discriminate|].
    unfold bind. destruct (randbelow_spec (S (S i)) r) as (j & Hj & ->); [lia|].
    destruct (lookup_lt_is_Some_2 x (S i) Hi) as [xi Hxi].
    destruct (lookup_lt_is_Some_2 x j ltac:(lia)) as [xj Hxj].
    rewrite Hxi, Hxj.
    destruct (IH (<[j:=xi]> (<[S i:=xj]> x))
                {| draws := draws r; cursor := S (cursor r) |})
      as (x' & r' & -> & Hp).
    { right. rewrite !length_insert. lia. }
    eexists _, _. split; [reflexivity|].
    rewrite Hp. by apply Permutation_insert_swap.
Qed.

Lemma shuffle_spec x (r : source) :
  exists x' r', shuffle x r = inr (x', r') /\ x' ≡ₚ x.
Proof.
  apply shuffle_from_spec. destruct x; simpl; lia.
Qed.

Lemma insert_take_out pool (j : nat) (a b : A) :
  pool !! j = Some a -> a :: <[j:=b]> pool ≡ₚ b :: pool.
Proof.
  intros Hj.
  assert (Hlt : (j < length pool)%nat) by eauto using lookup_lt_Some.
  rewrite (delete_Permutation (<[j:=b]> pool) j b)
    by (by apply list_lookup_insert_eq).
  rewrite (delete_Permutation pool j a Hj) at 2.
  rewrite Permutation_swap. do 2 f_equiv.
  rewrite !delete_take_drop. rewrite take_insert_ge by lia.
  by rewrite drop_insert_lt by lia.
Qed.

Lemma sample_pool_spec (k n : nat) pool (r : source) :
  (k <= n <= length pool)%nat ->
  exists res r', sample_pool k n pool r = inr (res, r') /\
    length res = k /\ res ⊆+ take n pool.
Proof.
  revert n pool r. induction k as [|k IH]; intros n pool r Hk; simpl.
  - eexists _, _. split; [reflexivity|]. split; [done|]. apply submseteq_nil_l.
  - unfold bind. destruct (randbelow_spec n r) as (j & Hj & ->); [lia|].
    destruct (lookup_lt_is_Some_2 pool j ltac:(lia)) as [a Ha].
    destruct (lookup_lt_is_Some_2 pool (n - 1) ltac:(lia)) as [b Hb].
    rewrite Ha, Hb.
    destruct (IH (n - 1)%nat (<[j:=b]> pool)
                {| draws := draws r; cursor := S (cursor r) |})
      as (res & r' & -> & Hlen & Hsub).
    { rewrite length_insert. lia. }
    eexists _, _. split; [reflexivity|]. split; [simpl; lia|].
    assert (Hn : take n pool = take (n - 1) pool ++ [b]).
    { replace n with (S (n - 1)) at 1 by lia. by apply take_S_r. }
    rewrite Hn.
    destruct (decide (j = n - 1)%nat) as [->|Hne].
    + rewrite take_insert_ge in Hsub by lia.
      assert (a = b) as -> by congruence.
      rewrite (comm (++)). simpl. by apply submseteq_skip.
    + rewrite take_insert_lt in Hsub by lia.
      rewrite (comm (++)). simpl.
      rewrite <-(insert_take_out (take (n - 1) pool) j a b)
        by (rewrite lookup_take_lt by lia; done).
      by apply submseteq_skip.
Qed.

Lemma sample_spec pool (k : Z) (r : source) :
  0 <= k <= Z.of_nat (length pool) ->
  exists res r', sample pool k r = inr (res, r') /\
    Z.of_nat (length res) = k /\ res ⊆+ pool.
Proof.
  intros Hk. unfold sample.
  destruct (Z.leb_spec 0 k); [|lia].
  destruct (Z.leb_spec k (Z.of_nat (length pool))); [|lia]. simpl.
  destruct (sample_pool_spec (Z.to_nat k) (length pool) pool r)
    as (res & r' & -> & Hlen & Hsub); [lia|].
  eexists _, _. split; [reflexivity|]. split; [lia|].
  by rewrite take_ge in Hsub by lia.
Qed.

Lemma sample_too_many pool (k : Z) (r : source) :
  Z.of_nat (length pool) < k -> sample pool k r = inl ValueError.
Proof.
  intros Hk. unfold sample.
  destruct (Z.leb_spec k (Z.of_nat (length pool))); [lia|].
  by rewrite andb_false_r.
Qed.

End Lists.

Example int_of_padded_numeral : int (VStr " 12 ") = inr 12.
Proof. reflexivity. Qed.

Example int_of_negative_numeral : int (VStr "-3") = inr (-3).
Proof. reflexivity. Qed.

Example int_of_non_numeral : int (VStr "3a") = inl ValueError.
Proof. reflexivity. Qed.

Example fixed_in_quorum_type : contains "fixed" (VStr "fixed") = inr true.
Proof. reflexivity. Qed.

Example fixed_in_none : contains "fixed" VNone = inl TypeError.
Proof. reflexivity. Qed.

Example randint_empty_range :
  randint 1 0 Examples.counting = inl ValueError.
Proof. reflexivity. Qed.

Example shuffle_run :
  shuffle ["a"; "b"; "c"]%string Examples.counting
  = inr (["c"; "b"; "a"]%string, {| draws := fun n => n; cursor := 2 |}).
Proof. reflexivity. Qed.

Example sample_run :
  sample ["a"; "b"; "c"]%string 2 Examples.counting
  = inr (["a"; "b"]%string, {| draws := fun n => n; cursor := 2 |}).
Proof. reflexivity. Qed.

Example sample_larger_than_population :
  sample ["a"; "b"; "c"]%string 4 Examples.counting = inl ValueError.
Proof. reflexivity. Qed.

End RandomFacts.

(** ** Properties of the selection *)

Module SelectionFacts.

Import Py Random BrickLibs Vocabulary RandomFacts.

Lemma submseteq_NoDup {A} (l k : list A) : l ⊆+ k -> NoDup k -> NoDup l.
Proof.
  intros [k' Hk]%submseteq_Permutation Hnd. rewrite Hk in Hnd.
  by apply NoDup_app in Hnd as (? & _ & _).
Qed.

Lemma filter_keep_all {A} (P : A -> Prop) `{!forall x, Decision (P x)}
    (l : list A) :
  (forall x, x ∈ l -> P x) -> filter P l = l.
Proof.
  induction l as [|a l IH]; intros Hall; [done|].
  rewrite filter_cons_True by (apply Hall; left).
  f_equal. apply IH. intros x Hx. apply Hall. by right.
Qed.

Lemma filter_keep_none {A} (P : A -> Prop) `{!forall x, Decision (P x)}
    (l : list A) :
  (forall x, x ∈ l -> ~ P x) -> filter P l = [].
Proof.
  induction l as [|a l IH]; intros Hall; [done|].
  rewrite filter_cons_False by (apply Hall; left).
  apply IH. intros x Hx. apply Hall. by right.
Qed.

Lemma elem_of_concat_group {A} (g : list A) (gs : list (list A)) (x : A) :
  x ∈ g -> g ∈ gs -> x ∈ concat gs.
Proof.
  intros Hx Hg. induction Hg as [g gs|g g' gs _ IH]; simpl;
    apply elem_of_app; auto.
Qed.

Lemma picks_submseteq limit (gs ps : list (list Brick)) :
  Forall2 (group_pick limit) gs ps -> concat ps ⊆+ concat gs.
Proof.
  induction 1 as [|g p gs ps [_ Hp] _ IH]; simpl; [done|].
  by apply submseteq_app.
Qed.

(** With disjoint groups, the bricks of the selection that belong to a
    group are the ones picked from it. *)
Lemma picks_of_group limit (gs ps : list (list Brick)) (g : list Brick) :
  Forall2 (group_pick limit) gs ps ->
  NoDup (concat gs) ->
  g ∈ gs ->
  exists p, group_pick limit g p /\ filter (.∈ g) (concat ps) = p.
Proof.
  induction 1 as [|g0 p0 gs ps Hp0 Hrest IH]; intros Hnd Hg.
  - by apply elem_of_nil in Hg.
  - simpl in Hnd. apply NoDup_app in Hnd as (Hnd0 & Hdisj & Hnd').
    pose proof (picks_submseteq _ _ _ Hrest) as Hsub.
    simpl. rewrite filter_app.
    destruct (decide (g = g0)) as [->|Hne].
    + exists p0. split; [done|].
      rewrite (filter_keep_all _ p0), (filter_keep_none _ (concat ps)).
      * apply app_nil_r.
      * intros x Hx Hx0. apply (Hdisj x Hx0).
        by apply (elem_of_submseteq (concat ps)).
      * intros x Hx. destruct Hp0 as [_ Hp0].
        by apply (elem_of_submseteq p0).
    + apply elem_of_cons in Hg as [?|Hg]; [done|].
      destruct (IH Hnd' Hg) as (p & Hp & Hf). exists p. split; [done|].
      rewrite (filter_keep_none _ p0), Hf; [done|].
      intros x Hx Hxg. destruct Hp0 as [_ Hp0].
      apply (Hdisj x).
      * by apply (elem_of_submseteq p0).
      * by apply (elem_of_concat_group g).
Qed.

Lemma group_pick_NoDup limit (gs : list (list Brick)) (g p : list Brick) :
  group_pick limit g p -> NoDup (concat gs) -> g ∈ gs -> NoDup p.
Proof.
  intros [_ Hp] Hnd Hg. apply (submseteq_NoDup p g Hp).
  induction Hg as [g gs|g g' gs _ IH]; simpl in Hnd;
    apply NoDup_app in Hnd as (? & _ & ?); auto.
Qed.

(** The loop over the groups, for a body that picks from each group. *)
Lemma for_each_picks limit
    (body : Subvol -> list Brick -> M source (list Brick))
    (gs : list Subvol) :
  (forall g acc r, Z.of_nat (length g) >= limit ->
     exists p r', body g acc r = inr (acc ++ p, r') /\ group_pick limit g p) ->
  Forall (fun g => Z.of_nat (length g) >= limit) gs ->
  forall acc r, exists ps r',
    for_each gs body acc r = inr (acc ++ concat ps, r') /\
    Forall2 (group_pick limit) gs ps.
Proof.
  intros Hbody. induction 1 as [|g gs Hg _ IH]; intros acc r; simpl.
  - exists [], r. simpl. rewrite app_nil_r. split; [reflexivity|constructor].
  - unfold bind. destruct (Hbody g acc r Hg) as (p & r1 & -> & Hp).
    destruct (IH (acc ++ p) r1) as (ps & r2 & -> & Hps).
    exists (p :: ps), r2. simpl. rewrite app_assoc.
    split; [reflexivity|by constructor].
Qed.

Lemma pick_spec (limit : Z) (g : Subvol) (r : source) :
  1 <= limit -> Z.of_nat (length g) >= limit ->
  exists g' r1 k r2 p r3,
    shuffle g r = inr (g', r1) /\ randint 1 limit r1 = inr (k, r2) /\
    sample g' k r2 = inr (p, r3) /\ group_pick limit g p.
Proof.
  intros Hl Hg.
  destruct (shuffle_spec g r) as (g' & r1 & Hsh & Hperm).
  destruct (randint_spec 1 limit r1 Hl) as (k & r2 & Hk & Hrange).
  destruct (sample_spec g' k r2) as (p & r3 & Hp & Hlen & Hsub).
  { rewrite Hperm. lia. }
  exists g', r1, k, r2, p, r3. repeat split; try done; try lia.
  by rewrite <-Hperm.
Qed.

Lemma select_from_subvol_spec (limit : Z) (g : Subvol) (acc : list Brick)
    (r : source) :
  1 <= limit -> Z.of_nat (length g) >= limit ->
  exists p r', select_from_subvol limit g acc r = inr (acc ++ p, r') /\
    group_pick limit g p.
Proof.
  intros Hl Hg.
  destruct (pick_spec limit g r Hl Hg)
    as (g' & r1 & k & r2 & p & r3 & Hsh & Hk & Hp & Hpick).
  exists p, r3. split; [|done].
  unfold select_from_subvol, bind. by rewrite Hsh, Hk, Hp.
Qed.

(** The limit computation draws nothing and leaves the state alone. *)
Lemma offline_bricks_limit_state py {S} (rc qt qc : val) (s s' : S) o :
  offline_bricks_limit py rc qt qc s = inr (o, s') -> s' = s.
Proof.
  unfold offline_bricks_limit, bind, lift, ret.
  repeat (case_innermost; simpl; try discriminate); congruence.
Qed.

End SelectionFacts.

(** ** The quorum bound *)

Module QuorumBound.

Import Py Random BrickLibs Vocabulary RandomFacts SelectionFacts.

Lemma ceil_div2_python2_floor (n : Z) :
  2 * ceil_div2 Python2 n <= n < 2 * ceil_div2 Python2 n + 2.
Proof. simpl. pose proof (Z.div_mod n 2). pose proof (Z.mod_pos_bound n 2). lia. Qed.

Lemma ceil_div2_python3_ceiling (n : Z) :
  2 * ceil_div2 Python3 n - 2 < n <= 2 * ceil_div2 Python3 n.
Proof.
  simpl. pose proof (Z.div_mod (n + 1) 2).
  pose proof (Z.mod_pos_bound (n + 1) 2). lia.
Qed.

Lemma ceil_div2_le (py : version) (n : Z) : 1 <= n -> ceil_div2 py n <= n.
Proof.
  intros Hn. destruct py.
  - pose proof (ceil_div2_python2_floor n). lia.
  - pose proof (ceil_div2_python3_ceiling n). lia.
Qed.

Lemma fixed_limit py {S} (rc qt qc : val) (n c : Z) (s : S) :
  contains "fixed" qt = inr true -> qc <> VNone ->
  int rc = inr n -> int qc = inr c ->
  offline_bricks_limit py rc qt qc s = inr (Some (n - c), s).
Proof.
  intros Hf Hqc Hn Hc. unfold offline_bricks_limit, bind, lift.
  rewrite Hf. destruct qc; try done; by rewrite Hn, Hc.
Qed.

Lemma auto_limit py {S} (rc qt qc : val) (n : Z) (s : S) :
  contains "fixed" qt = inr false -> contains "auto" qt = inr true ->
  int rc = inr n ->
  offline_bricks_limit py rc qt qc s = inr (Some (ceil_div2 py n), s).
Proof.
  intros Hf Ha Hn. unfold offline_bricks_limit, bind, lift.
  by rewrite Hf, Ha, Hn.
Qed.

(** C2 (the code at the failing input).  A quorum type of [None] never
    reaches the branch [elif quorum_type is None] that would set the limit
    to [replica_count - 1]: the test ['fixed' in quorum_type] comes first
    and raises [TypeError] on [None], whatever the replica count, the
    quorum count and the interpreter. *)
Theorem none_quorum_type_raises py {S} (replica_count quorum_count : val)
    (s : S) :
  offline_bricks_limit py replica_count VNone quorum_count s = inl TypeError.
Proof. reflexivity. Qed.

Example auto_limit_replica_3_python2 :
  offline_bricks_limit Python2 (VStr "3") (VStr "auto") VNone tt
  = inr (Some 1, tt).
Proof. reflexivity. Qed.

Example auto_limit_replica_3_python3 :
  offline_bricks_limit Python3 (VStr "3") (VStr "auto") VNone tt
  = inr (Some 2, tt).
Proof. reflexivity. Qed.

Example none_string_is_invalid py :
  offline_bricks_limit py (VStr "2") (VStr "none") VNone tt = inr (None, tt).
Proof. reflexivity. Qed.

End QuorumBound.

(** ** The selection from replicated and disperse volumes *)

Module Selection.

Import Py Random BrickLibs Vocabulary RandomFacts SelectionFacts.

Lemma selection_of_picks limit (gs ps : list (list Brick)) :
  Forall2 (group_pick limit) gs ps ->
  NoDup (concat gs) ->
  concat ps ⊆+ concat gs /\
  forall g, g ∈ gs ->
    let chosen := filter (.∈ g) (concat ps) in
    1 <= Z.of_nat (length chosen) <= limit /\ NoDup chosen.
Proof.
  intros Hps Hnd. split; [by eapply picks_submseteq|].
  intros g Hg.
  destruct (picks_of_group limit gs ps g Hps Hnd Hg) as (p & Hp & Hf).
  cbv zeta. rewrite Hf. split; [apply Hp|by eapply group_pick_NoDup].
Qed.

(** C1.  In a replicated topology whose quorum gives an offline limit
    [limit >= 1], with groups of at least [limit] bricks and no brick
    listed twice, the function returns a selection (it raises nothing)
    made of bricks of the topology, and of every group the selection holds
    at least one and at most [limit] bricks, all different. *)
Theorem replicated_selection_within_limit py
    (subvols_list : list Subvol) (replica_count : val)
    (quorum_info : gmap string val)
    (applicable quorum_type quorum_count : val) (limit : Z) (r : source) :
  quorum_info !! "is_quorum_applicable" = Some applicable ->
  quorum_info !! "quorum_type" = Some quorum_type ->
  quorum_info !! "quorum_count" = Some quorum_count ->
  truthy applicable = true ->
  offline_bricks_limit py replica_count quorum_type quorum_count r
  = inr (Some limit, r) ->
  1 <= limit ->
  Forall (fun g => Z.of_nat (length g) >= limit) subvols_list ->
  NoDup (concat subvols_list) ->
  exists selected r',
    get_bricks_to_bring_offline_from_replicated_volume
      py subvols_list replica_count quorum_info r = inr (selected, r') /\
    selected ⊆+ concat subvols_list /\
    forall g, g ∈ subvols_list ->
      let chosen := filter (.∈ g) selected in
      1 <= Z.of_nat (length chosen) <= limit /\ NoDup chosen.
Proof.
  intros Ha Ht Hc Htrue Hlimit Hpos Hsize Hnd.
  unfold get_bricks_to_bring_offline_from_replicated_volume.
  rewrite Ha, Ht, Hc, Htrue. unfold bind at 1. rewrite Hlimit.
  destruct (for_each_picks limit (select_from_subvol limit) subvols_list)
    with (acc := @nil Brick) (r := r) as (ps & r' & -> & Hps); [|done|].
  { intros g acc r0 Hg. by apply select_from_subvol_spec. }
  exists (concat ps), r'. split; [reflexivity|].
  by apply (selection_of_picks limit subvols_list).
Qed.

Lemma replicated_selection_within_limit_witness :
  exists selected r',
    get_bricks_to_bring_offline_from_replicated_volume
      Python2 Examples.two_groups_of_three (VStr "3")
      (Examples.quorum_info (VBool true) (VStr "fixed") (VStr "2"))
      Examples.counting = inr (selected, r') /\
    selected ⊆+ concat Examples.two_groups_of_three /\
    forall g, g ∈ Examples.two_groups_of_three ->
      let chosen := filter (.∈ g) selected in
      1 <= Z.of_nat (length chosen) <= 1 /\ NoDup chosen.
Proof.
  apply (replicated_selection_within_limit Python2
           Examples.two_groups_of_three (VStr "3")
           (Examples.quorum_info (VBool true) (VStr "fixed") (VStr "2"))
           (VBool true) (VStr "fixed") (VStr "2") 1 Examples.counting).
  - reflexivity.
  - reflexivity.
  - reflexivity.
  - reflexivity.
  - reflexivity.
  - lia.
  - repeat constructor; simpl; lia.
  - apply (bool_decide_unpack _). vm_compute. reflexivity.
Defined.

(** C8.  In a disperse topology with redundancy count [R >= 1], groups of
    at least [R] bricks and no brick listed twice, the function returns a
    selection made of bricks of the topology, and of every group the
    selection holds at least one and at most [R] bricks, all different.
    For one group of 6 bricks and [R = 2] these are one or two bricks of
    the group. *)
Theorem disperse_selection_within_redundancy
    (subvols_list : list Subvol) (redundancy_count : val) (R : Z)
    (r : source) :
  int redundancy_count = inr R ->
  1 <= R ->
  Forall (fun g => Z.of_nat (length g) >= R) subvols_list ->
  NoDup (concat subvols_list) ->
  exists selected r',
    get_bricks_to_bring_offline_from_disperse_volume
      subvols_list redundancy_count r = inr (selected, r') /\
    selected ⊆+ concat subvols_list /\
    forall g, g ∈ subvols_list ->
      let chosen := filter (.∈ g) selected in
      1 <= Z.of_nat (length chosen) <= R /\ NoDup chosen.
Proof.
  intros HR Hpos Hsize Hnd.
  unfold get_bricks_to_bring_offline_from_disperse_volume.
  match goal with
  | |- context [for_each _ ?body _ _] =>
      destruct (for_each_picks R body subvols_list)
        with (acc := @nil Brick) (r := r) as (ps & r' & -> & Hps); [|done|]
  end.
  { intros g acc r0 Hg.
    destruct (pick_spec R g r0 Hpos Hg)
      as (g' & r1 & k & r2 & p & r3 & Hsh & Hk & Hp & Hpick).
    exists p, r3. split; [|done].
    unfold bind, lift. by rewrite Hsh, HR, Hk, Hp. }
  exists (concat ps), r'. split; [reflexivity|].
  by apply (selection_of_picks R subvols_list).
Qed.

Lemma disperse_selection_within_redundancy_witness :
  exists selected r',
    get_bricks_to_bring_offline_from_disperse_volume
      Examples.one_group_of_six (VStr "2") Examples.counting
    = inr (selected, r') /\
    selected ⊆+ concat Examples.one_group_of_six /\
    forall g, g ∈ Examples.one_group_of_six ->
      let chosen := filter (.∈ g) selected in
      1 <= Z.of_nat (length chosen) <= 2 /\ NoDup chosen.
Proof.
  apply (disperse_selection_within_redundancy
           Examples.one_group_of_six (VStr "2") 2 Examples.counting).
  - reflexivity.
  - lia.
  - repeat constructor; simpl; lia.
  - apply (bool_decide_unpack _). vm_compute. reflexivity.
Defined.

End Selection.

(** ** Degenerate and inconsistent inputs *)

Module EdgeCases.

Import Py Random BrickLibs Vocabulary RandomFacts SelectionFacts.

Lemma select_from_subvol_empty_range (limit : Z) (g : Subvol)
    (acc : list Brick) (r : source) :
  limit < 1 -> select_from_subvol limit g acc r = inl ValueError.
Proof.
  intros Hl. unfold select_from_subvol, bind.
  destruct (shuffle_spec g r) as (g' & r1 & -> & _).
  by rewrite randint_empty.
Qed.

Lemma replicated_fixed_full_quorum_raises py (g : Subvol) (gs : list Subvol)
    (n : Z) (r : source) :
  get_bricks_to_bring_offline_from_replicated_volume py (g :: gs) (VInt n)
    (Examples.quorum_info (VBool true) (VStr "fixed") (VInt n)) r
  = inl ValueError.
Proof.
  unfold get_bricks_to_bring_offline_from_replicated_volume.
  change (Examples.quorum_info _ _ _ !! "is_quorum_applicable")
    with (Some (VBool true)).
  change (Examples.quorum_info _ _ (VInt n) !! "quorum_type")
    with (Some (VStr "fixed")).
  change (Examples.quorum_info _ _ (VInt n) !! "quorum_count")
    with (Some (VInt n)).
  cbn [truthy]. unfold bind at 1.
  rewrite (QuorumBound.fixed_limit py (VInt n) (VStr "fixed") (VInt n) n n)
    by done.
  rewrite Z.sub_diag. cbn [for_each]. unfold bind at 1.
  by rewrite select_from_subvol_empty_range.
Qed.

(** C3 (the code at the failing input).  With a [fixed] quorum whose count
    equals the replica count the limit is 0, and on the first group
    [random.randint(1, 0)] raises [ValueError]: the group is not skipped
    and the function does not return. *)
Theorem zero_limit_raises py (g : Subvol) (gs : list Subvol) (n : Z)
    (r : source) :
  offline_bricks_limit py (VInt n) (VStr "fixed") (VInt n) r
  = inr (Some 0, r) /\
  get_bricks_to_bring_offline_from_replicated_volume py (g :: gs) (VInt n)
    (Examples.quorum_info (VBool true) (VStr "fixed") (VInt n)) r
  = inl ValueError.
Proof.
  split; [|apply replicated_fixed_full_quorum_raises].
  rewrite (QuorumBound.fixed_limit py (VInt n) (VStr "fixed") (VInt n) n n)
    by done.
  by rewrite Z.sub_diag.
Qed.

(** C5 (the code at the failing input).  For a replicated volume whose
    [fixed] quorum count equals its replica count
    [select_bricks_to_bring_offline] raises [ValueError] instead of
    returning a dictionary. *)
Theorem select_bricks_to_bring_offline_raises py (g : Subvol)
    (gs : list Subvol) (n : Z) (mnode volname : string) (r : source) :
  select_bricks_to_bring_offline py
    (Examples.plain_volume "Replicate" (VInt n) (g :: gs)
       (Examples.quorum_info (VBool true) (VStr "fixed") (VInt n)))
    mnode volname r
  = inl ValueError.
Proof.
  unfold select_bricks_to_bring_offline,
    select_volume_bricks_to_bring_offline. cbn -[Examples.quorum_info
    get_bricks_to_bring_offline_from_replicated_volume].
  unfold bind. cbn -[Examples.quorum_info
    get_bricks_to_bring_offline_from_replicated_volume].
  by rewrite replicated_fixed_full_quorum_raises.
Qed.

(** C9.  With a quorum type that contains ['fixed'] and a quorum count of
    [None], or with a quorum type that is a string containing neither
    ['fixed'] nor ['auto'], the function returns the empty list and draws
    nothing, whatever the groups are. *)
Theorem inconsistent_quorum_returns_empty py (subvols_list : list Subvol)
    (replica_count : val) (quorum_info : gmap string val) (s : string)
    (r : source) :
  quorum_info !! "quorum_type" = Some (VStr s) ->
  (contains "fixed" (VStr s) = inr true /\
   quorum_info !! "quorum_count" = Some VNone) \/
  (contains "fixed" (VStr s) = inr false /\
   contains "auto" (VStr s) = inr false) ->
  get_bricks_to_bring_offline_from_replicated_volume
    py subvols_list replica_count quorum_info r = inr ([], r).
Proof.
  intros Ht Hcase.
  unfold get_bricks_to_bring_offline_from_replicated_volume.
  rewrite Ht. destruct (quorum_info !! "is_quorum_applicable") as [a|]; [|done].
  destruct (quorum_info !! "quorum_count") as [qc|] eqn:Hqc; [|done].
  destruct (truthy a); [|done].
  unfold offline_bricks_limit, bind, lift.
  destruct Hcase as [[Hf Hc]|[Hf Ha]]; rewrite Hf.
  - by injection Hc as ->.
  - by rewrite Ha.
Qed.

Lemma inconsistent_quorum_returns_empty_witness :
  get_bricks_to_bring_offline_from_replicated_volume
    Python2 Examples.two_groups_of_three (VStr "3")
    (Examples.quorum_info (VBool true) (VStr "fixed") VNone)
    Examples.counting = inr ([], Examples.counting) /\
  get_bricks_to_bring_offline_from_replicated_volume
    Python2 Examples.two_groups_of_three (VStr "3")
    (Examples.quorum_info (VBool true) (VStr "server") (VStr "2"))
    Examples.counting = inr ([], Examples.counting).
Proof.
  split.
  - apply (inconsistent_quorum_returns_empty Python2
             Examples.two_groups_of_three (VStr "3")
             (Examples.quorum_info (VBool true) (VStr "fixed") VNone)
             "fixed" Examples.counting).
    + reflexivity.
    + left. split; reflexivity.
  - apply (inconsistent_quorum_returns_empty Python2
             Examples.two_groups_of_three (VStr "3")
             (Examples.quorum_info (VBool true) (VStr "server") (VStr "2"))
             "server" Examples.counting).
    + reflexivity.
    + right. split; reflexivity.
Defined.





(** C10.  For a tiered volume whose volume info is available,
    [select_bricks_to_bring_offline] is
    [select_tier_volume_bricks_to_bring_offline]: the dictionary it returns
    has exactly the keys ['hot_tier_bricks'] and ['cold_tier_bricks'], and
    neither ['is_tier'] nor ['volume_bricks']. *)
Theorem tiered_result_replaces_default py (c : cluster)
    (mnode volname : string) (r : source) :
  is_Some (get_volume_info c mnode volname) ->
  is_tiered_volume c mnode volname = true ->
  select_bricks_to_bring_offline py c mnode volname r
  = select_tier_volume_bricks_to_bring_offline py c mnode volname r /\
  forall (d : gmap string val) (r' : source),
    select_bricks_to_bring_offline py c mnode volname r = inr (d, r') ->
    dom d = {["hot_tier_bricks"; "cold_tier_bricks"]} /\
    d !! "is_tier" = None /\ d !! "volume_bricks" = None.
Proof.
  intros [u Hinfo] Htier.
  unfold select_bricks_to_bring_offline,
    select_tier_volume_bricks_to_bring_offline.
  rewrite Hinfo, Htier. split; [reflexivity|].
  intros d r'. unfold bind.
  destruct (select_hot_tier_bricks_to_bring_offline py c mnode volname r)
    as [e|[hot r1]]; [discriminate|].
  destruct (select_cold_tier_bricks_to_bring_offline py c mnode volname r1)
    as [e|[cold r2]]; [discriminate|].
  intros [= <- <-]. split; [|split].
  - rewrite !dom_insert_L, dom_empty_L. set_solver.
  - reflexivity.
  - reflexivity.
Qed.

Lemma tiered_result_replaces_default_witness :
  select_bricks_to_bring_offline Python2 Examples.tiered_volume
    "s1" "testvol" Examples.counting
  = select_tier_volume_bricks_to_bring_offline Python2 Examples.tiered_volume
      "s1" "testvol" Examples.counting /\
  forall (d : gmap string val) (r' : source),
    select_bricks_to_bring_offline Python2 Examples.tiered_volume
      "s1" "testvol" Examples.counting = inr (d, r') ->
    dom d = {["hot_tier_bricks"; "cold_tier_bricks"]} /\
    d !! "is_tier" = None /\ d !! "volume_bricks" = None.
Proof.
  apply (tiered_result_replaces_default Python2 Examples.tiered_volume
           "s1" "testvol" Examples.counting).
  - exists tt. reflexivity.
  - reflexivity.
Defined.

Example tiered_volume_selection :
  select_bricks_to_bring_offline Python2 Examples.tiered_volume
    "s1" "testvol" Examples.counting
  = inr (<["cold_tier_bricks" := VList ["s5:/d"; "s6:/d"]]>
           (<["hot_tier_bricks" := VList []]> ∅),
         {| draws := fun n => n; cursor := 8 |}).
Proof. vm_compute. reflexivity. Qed.

End EdgeCases.

(** ** The wait loop *)

Module Poller.

Import Py Random BrickLibs Vocabulary.

Lemma for_each_keeps_state {S A B} (body : A -> B -> M S B) (l : list A) :
  (forall x acc s b s', body x acc s = inr (b, s') -> s' = s) ->
  forall acc s b s', for_each l body acc s = inr (b, s') -> s' = s.
Proof.
  intros Hbody. induction l as [|x l IH]; intros acc s b s'; simpl.
  - unfold ret. congruence.
  - unfold bind. destruct (body x acc s) as [e|[b1 s1]] eqn:Hx; [discriminate|].
    intros Hrest. apply IH in Hrest. apply Hbody in Hx. congruence.
Qed.

(** A poll costs one status query and no time, whatever it answers. *)
Lemma are_bricks_online_world (mnode volname : string)
    (bricks : list Brick) (w w' : world) (status : val) :
  are_bricks_online mnode volname bricks w = inr (status, w') ->
  w' = advance 1 0 w /\ (status = VNone \/ exists b, status = VBool b).
Proof.
  unfold are_bricks_online, bind, get_volume_status.
  assert (Hw : {| slept := slept w; queries := S (queries w);
                  status_at := status_at w |} = advance 1 0 w).
  { unfold advance. f_equal; lia. }
  rewrite Hw.
  destruct (status_at w (queries w) mnode volname) as [snap|].
  - match goal with
    | |- context [for_each _ ?body ?acc ?s] =>
        destruct (for_each bricks body acc s) as [e|[r s1]] eqn:Hloop
    end; [discriminate|].
    apply for_each_keeps_state in Hloop.
    + unfold ret. intros [= <- <-]. split; [done|]. right. by eexists.
    + intros x [rc off] s b s'. unfold bind, lift, ret, raise.
      repeat (case_innermost; try discriminate); congruence.
  - unfold ret. intros [= <- <-]. split; [done|]. by left.
Qed.

Lemma are_bricks_online_fetch_failure (mnode volname : string)
    (bricks : list Brick) (w : world) :
  status_at w (queries w) mnode volname = None ->
  are_bricks_online mnode volname bricks w = inr (VNone, advance 1 0 w).
Proof.
  intros Hnone. unfold are_bricks_online, bind, get_volume_status.
  rewrite Hnone. unfold ret, advance. do 3 f_equal; lia.
Qed.

Lemma never_online_fetch_failure (mnode volname : string)
    (bricks : list Brick) (w : world) :
  (forall n, (queries w <= n)%nat -> status_at w n mnode volname = None) ->
  never_online mnode volname bricks w.
Proof.
  intros Hnone n t Hn. exists VNone. split; [|reflexivity].
  rewrite are_bricks_online_fetch_failure by (by apply Hnone).
  unfold advance. simpl. do 3 f_equal; lia.
Qed.

(** The number of iterations left when the loop is entered at [counter]. *)
Lemma polls_left_step (timeout counter : Z) :
  counter < timeout ->
  (timeout - counter + 9) / 10 = 1 + (timeout - (counter + 10) + 9) / 10.
Proof.
  intros _.
  replace (timeout - counter + 9) with (1 * 10 + (timeout - (counter + 10) + 9))
    by lia.
  by rewrite Z.div_add_l.
Qed.

(** A poll that does not find the bricks online, be it because a brick is
    offline or because the status could not be fetched, is followed by ten
    seconds of sleep and the next round of the loop. *)
Lemma wait_loop_not_online (fuel : nat) (mnode volname : string)
    (bricks : list Brick) (timeout counter : Z) (w : world) (status : val) :
  counter < timeout ->
  are_bricks_online mnode volname bricks w = inr (status, advance 1 0 w) ->
  truthy status = false ->
  wait_loop (S fuel) mnode volname bricks timeout counter w
  = wait_loop fuel mnode volname bricks timeout (counter + 10)
      (advance 1 10 w).
Proof.
  intros Hlt Hpoll Hfalse. simpl.
  destruct (Z.ltb_spec counter timeout); [|lia].
  unfold bind at 1. rewrite Hpoll, Hfalse. unfold bind, sleep.
  f_equal. unfold advance. simpl. f_equal; lia.
Qed.

Lemma wait_loop_never_online (mnode volname : string) (bricks : list Brick)
    (timeout : Z) (w : world) :
  never_online mnode volname bricks w ->
  forall (fuel : nat) (counter : Z) (w0 : world),
    status_at w0 = status_at w -> (queries w <= queries w0)%nat ->
    (Z.to_nat ((timeout - counter + 9) / 10) < fuel)%nat ->
    wait_loop fuel mnode volname bricks timeout counter w0
    = inr (Some false,
           advance (Z.to_nat ((timeout - counter + 9) / 10))
             (10 * Z.of_nat (Z.to_nat ((timeout - counter + 9) / 10))) w0).
Proof.
  intros Hnever. induction fuel as [|fuel IH]; intros counter w0 Hst Hq Hfuel.
  - lia.
  - destruct (Z.ltb_spec counter timeout) as [Hlt|Hge].
    + destruct (Hnever (queries w0) (slept w0) Hq) as (status & Hpoll & Hfalse).
      rewrite <-Hst in Hpoll.
      assert (Hw0 : {| slept := slept w0; queries := queries w0;
                       status_at := status_at w0 |} = w0) by (by destruct w0).
      rewrite Hw0 in Hpoll.
      rewrite (wait_loop_not_online fuel _ _ _ _ _ _ status Hlt); [|
        rewrite Hpoll; unfold advance; do 3 f_equal; lia | done].
      pose proof (polls_left_step timeout counter Hlt) as Hstep.
      assert (0 <= (timeout - (counter + 10) + 9) / 10)
        by (apply Z.div_pos; lia).
      rewrite IH; [| done | simpl; lia | lia].
      rewrite Hstep. unfold advance. simpl. do 3 f_equal; lia.
    + assert (Hz : (timeout - counter + 9) / 10 <= 0).
      { apply Z.lt_succ_r. apply Z.div_lt_upper_bound; lia. }
      replace (Z.to_nat ((timeout - counter + 9) / 10)) with O by lia.
      simpl. destruct (Z.ltb_spec counter timeout); [lia|].
      unfold ret, advance. destruct w0. simpl. do 3 f_equal; lia.
Qed.

(** The loop never runs out of the iterations the model grants it. *)
Lemma wait_loop_out_of_fuel (mnode volname : string) (bricks : list Brick)
    (timeout : Z) (fuel : nat) :
  forall (counter : Z) (w w' : world),
    wait_loop fuel mnode volname bricks timeout counter w = inr (None, w') ->
    fuel = O \/ counter + 10 * (Z.of_nat fuel - 1) < timeout.
Proof.
  induction fuel as [|fuel IH]; intros counter w w'; [by left|].
  right. revert H. simpl.
  destruct (Z.ltb_spec counter timeout) as [Hlt|Hge]; [|discriminate].
  unfold bind at 1.
  destruct (are_bricks_online mnode volname bricks w) as [e|[st w1]];
    [discriminate|].
  destruct (truthy st); [discriminate|].
  unfold bind, sleep. intros Hrest. apply IH in Hrest as [->|Hrest]; lia.
Qed.

Lemma wait_loop_enough_fuel (all_bricks : option (list Brick))
    (mnode volname : string) (timeout : Z) (w w' : world) :
  wait_for_bricks_to_be_online all_bricks mnode volname timeout w
  <> inr (None, w').
Proof.
  unfold wait_for_bricks_to_be_online.
  destruct all_bricks as [[|b bs]|]; try discriminate.
  unfold bind.
  destruct (wait_loop _ _ _ _ _ _ _) as [e|[[flag|] w1]] eqn:Hloop;
    [discriminate|destruct flag; discriminate|].
  apply wait_loop_out_of_fuel in Hloop as [?|Hloop]; lia.
Qed.

Lemma wait_never_online (mnode volname : string) (b : Brick)
    (bs : list Brick) (timeout : Z) (w : world) :
  0 <= timeout ->
  never_online mnode volname (b :: bs) w ->
  wait_for_bricks_to_be_online (Some (b :: bs)) mnode volname timeout w
  = inr (Some false,
         advance (Z.to_nat ((timeout + 9) / 10))
           (10 * ((timeout + 9) / 10)) w).
Proof.
  intros Ht Hnever. unfold wait_for_bricks_to_be_online, bind.
  assert (Hdiv : 0 <= (timeout + 9) / 10 <= timeout).
  { split; [apply Z.div_pos; lia|].
    apply Z.lt_succ_r. apply Z.div_lt_upper_bound; lia. }
  rewrite (wait_loop_never_online mnode volname (b :: bs) timeout w Hnever);
    [| done | lia | rewrite Z.sub_0_r; lia].
  rewrite Z.sub_0_r. simpl. unfold ret. do 3 f_equal. lia.
Qed.



(** C4, as the code has it.  A failed status fetch makes
    [are_bricks_online] return [None], which the loop takes for "not
    online": it sleeps ten seconds and polls again.  When every fetch
    fails the wait returns [False] after [n] status queries, [n] being the
    ceiling of [timeout / 10]: the result of a timeout. *)
Theorem failed_fetch_is_polled_again (mnode volname : string) (b : Brick)
    (bs : list Brick) (timeout : Z) (fuel : nat) (w : world) :
  0 < timeout ->
  (forall n, (queries w <= n)%nat -> status_at w n mnode volname = None) ->
  are_bricks_online mnode volname (b :: bs) w = inr (VNone, advance 1 0 w) /\
  wait_loop (S fuel) mnode volname (b :: bs) timeout 0 w
  = wait_loop fuel mnode volname (b :: bs) timeout 10 (advance 1 10 w) /\
  exists n : Z,
    10 * (n - 1) < timeout <= 10 * n /\
    wait_for_bricks_to_be_online (Some (b :: bs)) mnode volname timeout w
    = inr (Some false, advance (Z.to_nat n) (10 * n) w).
Proof.
  intros Ht Hnone.
  assert (Hpoll : are_bricks_online mnode volname (b :: bs) w
                  = inr (VNone, advance 1 0 w)).
  { apply are_bricks_online_fetch_failure. by apply Hnone. }
  split; [done|]. split.
  - exact (wait_loop_not_online fuel mnode volname (b :: bs) timeout 0 w
             VNone Ht Hpoll eq_refl).
  - exists ((timeout + 9) / 10).
    pose proof (Z.div_mod (timeout + 9) 10 ltac:(lia)).
    pose proof (Z.mod_pos_bound (timeout + 9) 10 ltac:(lia)).
    split; [lia|]. apply wait_never_online; [lia|].
    by apply never_online_fetch_failure.
Qed.

Lemma failed_fetch_is_polled_again_witness :
  are_bricks_online "s1" "testvol" ["s1:/b"%string] Examples.unreachable
  = inr (VNone, advance 1 0 Examples.unreachable) /\
  wait_loop 3 "s1" "testvol" ["s1:/b"%string] 20 0 Examples.unreachable
  = wait_loop 2 "s1" "testvol" ["s1:/b"%string] 20 10
      (advance 1 10 Examples.unreachable) /\
  exists n : Z,
    10 * (n - 1) < 20 <= 10 * n /\
    wait_for_bricks_to_be_online (Some ["s1:/b"%string]) "s1" "testvol" 20
      Examples.unreachable
    = inr (Some false, advance (Z.to_nat n) (10 * n) Examples.unreachable).
Proof.
  apply (failed_fetch_is_polled_again "s1" "testvol" "s1:/b" [] 20 2
           Examples.unreachable).
  - lia.
  - reflexivity.
Defined.

(** C4, as stated, fails: on a cluster whose status can never be fetched
    the wait does not stop at the first failed fetch.  It queries the
    status a second time, after ten seconds of sleep, and after twenty
    seconds returns [False], the very result it returns when the status
    is fetched and the brick is offline. *)
Lemma failed_fetch_not_surfaced :
  wait_for_bricks_to_be_online (Some ["s1:/b"%string]) "s1" "testvol" 20
    Examples.unreachable
  = inr (Some false,
         {| slept := 20; queries := 2;
            status_at := status_at Examples.unreachable |}) /\
  wait_for_bricks_to_be_online (Some ["s1:/b"%string]) "s1" "testvol" 20
    Examples.brick_down
  = inr (Some false,
         {| slept := 20; queries := 2;
            status_at := status_at Examples.brick_down |}).
Proof. split; reflexivity. Qed.

End Poller.

(** ** Brick status checks and brick lists *)

Module BrickStatus.

Import Py Random BrickLibs Vocabulary VolumeInfo MoreVocabulary.

Lemma polled_world (w : world) :
  {| slept := slept w; queries := S (queries w); status_at := status_at w |}
  = advance 1 0 w.
Proof. unfold advance. f_equal; lia. Qed.

(** A loop that keeps a flag and the list of the bricks failing a test on
    their status. *)
Lemma for_each_flags (test : Z -> bool) (snap : snapshot)
    (body : Brick -> bool * list Brick -> M world (bool * list Brick)) :
  (forall b rc l w, body b (rc, l) w =
     match brick_status snap b with
     | inl e => inl e
     | inr z => inr (if test z then (rc, l) else (false, l ++ [b]), w)
     end) ->
  forall bricks rc l w,
    match statuses snap bricks with
    | inl e => for_each bricks body (rc, l) w = inl e
    | inr zs =>
        exists l', for_each bricks body (rc, l) w
                   = inr ((rc && forallb test zs, l'), w)
    end.
Proof.
  intros Hbody bs0. induction bs0 as [|b bs IH]; intros rc l w; simpl.
  - exists l. by rewrite andb_true_r.
  - unfold bind. rewrite Hbody.
    destruct (brick_status snap b) as [e|z]; [done|].
    destruct (test z) eqn:Ht.
    + specialize (IH rc l w).
      destruct (statuses snap bs) as [e|zs]; simpl; [done|].
      destruct IH as [l' ->]. exists l'. by rewrite Ht.
    + specialize (IH false (l ++ [b]) w).
      destruct (statuses snap bs) as [e|zs]; simpl; [done|].
      destruct IH as [l' ->]. exists l'. rewrite Ht. simpl.
      by rewrite andb_false_r.
Qed.

Lemma statuses_cons_inv (snap : snapshot) (b : Brick) (bs : list Brick)
    (zs : list Z) :
  statuses snap (b :: bs) = inr zs ->
  exists z zs', zs = z :: zs' /\ brick_status snap b = inr z /\
                statuses snap bs = inr zs'.
Proof.
  simpl. destruct (brick_status snap b) as [e|z]; [discriminate|].
  destruct (statuses snap bs) as [e|zs']; [discriminate|].
  intros [= <-]. by exists z, zs'.
Qed.

Lemma status_verdicts (mnode volname : string)
    (bricks : list Brick) (w : world) (snap : snapshot) :
  status_at w (queries w) mnode volname = Some snap ->
  are_bricks_online mnode volname bricks w
  = match statuses snap bricks with
    | inl e => inl e
    | inr zs => inr (VBool (forallb (fun z => z =? 1) zs), advance 1 0 w)
    end /\
  are_bricks_offline mnode volname bricks w
  = match statuses snap bricks with
    | inl e => inl e
    | inr zs => inr (VBool (forallb (fun z => z =? 0) zs), advance 1 0 w)
    end.
Proof.
  intros Hsnap. split.
  - unfold are_bricks_online, bind at 1, get_volume_status.
    rewrite Hsnap, polled_world. unfold bind.
    match goal with
    | |- context [for_each bricks ?body _ _] =>
        pose proof (for_each_flags (fun z => z =? 1) snap body) as Hloop
    end.
    lapply Hloop; clear Hloop.
    + intros Hloop. specialize (Hloop bricks true [] (advance 1 0 w)).
      destruct (statuses snap bricks) as [e|zs].
      * by rewrite Hloop.
      * destruct Hloop as [l' ->]. reflexivity.
    + intros b rc l w0. unfold brick_status, bind, lift, ret, raise.
      destruct (split_colon b) as [|n [|p [|? ?]]]; try reflexivity.
      destruct (snap !! n) as [paths|]; try reflexivity.
      destruct (paths !! p) as [x|]; try reflexivity.
      destruct (int x) as [e|z]; try reflexivity.
      by destruct (z =? 1).
  - unfold are_bricks_offline, bind at 1, get_volume_status.
    rewrite Hsnap, polled_world. unfold bind at 1.
    match goal with
    | |- context [for_each bricks ?body _ _] =>
        pose proof (for_each_flags (fun z => z =? 0) snap body) as Hloop
    end.
    lapply Hloop; clear Hloop.
    + intros Hloop. specialize (Hloop bricks true [] (advance 1 0 w)).
      destruct (statuses snap bricks) as [e|zs].
      * by rewrite Hloop.
      * destruct Hloop as [l' ->]. reflexivity.
    + intros b rc l w0. unfold bind, lift, ret.
      destruct (brick_status snap b) as [e|z]; try reflexivity.
      by destruct (z =? 0).
Qed.

(** X1.  When the status of the volume can be fetched,
    [are_bricks_online] answers [True] exactly when every listed brick has
    status 1 and [are_bricks_offline] exactly when every one has status 0;
    both read the status of every brick of the list, so the first brick
    with a malformed name, absent from the status or with an unreadable
    status makes them raise, and both cost one status query. *)
Theorem status_check_verdicts (mnode volname : string)
    (bricks : list Brick) (w : world) (snap : snapshot) :
  status_at w (queries w) mnode volname = Some snap ->
  are_bricks_online mnode volname bricks w
  = match statuses snap bricks with
    | inl e => inl e
    | inr zs => inr (VBool (forallb (fun z => z =? 1) zs), advance 1 0 w)
    end /\
  are_bricks_offline mnode volname bricks w
  = match statuses snap bricks with
    | inl e => inl e
    | inr zs => inr (VBool (forallb (fun z => z =? 0) zs), advance 1 0 w)
    end.
Proof. exact (status_verdicts mnode volname bricks w snap). Qed.

Lemma status_check_verdicts_witness :
  are_bricks_online "s1" "testvol" ["s1:/b"%string] Examples.brick_up
  = inr (VBool true, advance 1 0 Examples.brick_up) /\
  are_bricks_offline "s1" "testvol" ["s1:/b"%string] Examples.brick_up
  = inr (VBool false, advance 1 0 Examples.brick_up).
Proof.
  apply (status_check_verdicts "s1" "testvol" ["s1:/b"%string]
           Examples.brick_up (Examples.one_brick (VStr "1"))).
  reflexivity.
Defined.

Lemma online_true_inv (mnode volname : string) (bricks : list Brick)
    (w w1 : world) :
  are_bricks_online mnode volname bricks w = inr (VBool true, w1) ->
  exists snap zs,
    status_at w (queries w) mnode volname = Some snap /\
    statuses snap bricks = inr zs /\
    forallb (fun z => z =? 1) zs = true /\ w1 = advance 1 0 w.
Proof.
  intros Hon.
  destruct (status_at w (queries w) mnode volname) as [snap|] eqn:Hsnap.
  - destruct (status_verdicts mnode volname bricks w snap Hsnap)
      as [Heq _].
    rewrite Heq in Hon. destruct (statuses snap bricks) as [e|zs] eqn:Hzs;
      [discriminate|].
    injection Hon as Hb Hw. exists snap, zs. repeat split; congruence.
  - rewrite Poller.are_bricks_online_fetch_failure in Hon by done.
    discriminate.
Qed.

(** X2.  On one status snapshot a non-empty list of bricks is never
    reported both online and offline: when [are_bricks_online] answers
    [True], [are_bricks_offline] answers [False]. *)
Theorem online_excludes_offline (mnode volname : string) (b : Brick)
    (bs : list Brick) (w w1 : world) :
  are_bricks_online mnode volname (b :: bs) w = inr (VBool true, w1) ->
  are_bricks_offline mnode volname (b :: bs) w = inr (VBool false, w1).
Proof.
  intros Hon.
  destruct (online_true_inv _ _ _ _ _ Hon) as (snap & zs & Hsnap & Hzs & Hall & ->).
  destruct (status_verdicts mnode volname (b :: bs) w snap Hsnap)
    as [_ ->].
  rewrite Hzs.
  destruct (statuses_cons_inv _ _ _ _ Hzs) as (z & zs' & -> & _ & _).
  simpl in Hall. apply andb_true_iff in Hall as [Hz _].
  apply Z.eqb_eq in Hz as ->. reflexivity.
Qed.

Lemma online_excludes_offline_witness :
  are_bricks_offline "s1" "testvol" ["s1:/b"%string] Examples.brick_up
  = inr (VBool false, advance 1 0 Examples.brick_up).
Proof.
  apply (online_excludes_offline "s1" "testvol" "s1:/b" []
           Examples.brick_up (advance 1 0 Examples.brick_up)).
  reflexivity.
Defined.

End BrickStatus.

Module BrickLists.

Import Py Random BrickLibs Vocabulary VolumeInfo MoreVocabulary BrickStatus.

Lemma filter_complement_Permutation {A} (f : A -> bool) (l : list A) :
  List.filter f l ++ List.filter (fun a => negb (f a)) l ≡ₚ l.
Proof.
  induction l as [|a l IH]; [done|]. simpl. destruct (f a); simpl.
  - by rewrite IH.
  - by rewrite <-Permutation_middle, IH.
Qed.

Lemma has_status_of (snap : snapshot) (b : Brick) (z : Z) :
  brick_status snap b = inr z -> has_status snap 1 b = (z =? 1).
Proof. intros H. unfold has_status. by rewrite H. Qed.

Lemma offline_loop (snap : snapshot) (l acc : list Brick) (w : world) :
  for_each l
    (fun brick offline_bricks_list =>
       let* status := lift (brick_status snap brick) in
       if negb (status =? 1)
       then ret (offline_bricks_list ++ [brick])
       else ret offline_bricks_list) acc w
  = match statuses snap l with
    | inl e => inl e
    | inr _ =>
        inr (acc ++ List.filter (fun b => negb (has_status snap 1 b)) l, w)
    end.
Proof.
  revert acc. induction l as [|b l IH]; intros acc; simpl.
  - by rewrite app_nil_r.
  - unfold bind at 1. unfold bind at 1, lift.
    destruct (brick_status snap b) as [e|z] eqn:Hb; [done|].
    rewrite (has_status_of snap b z Hb).
    destruct (z =? 1); simpl; unfold ret at 1; rewrite IH;
      destruct (statuses snap l); try done.
    by rewrite <-app_assoc.
Qed.

Lemma online_loop (snap : snapshot) (l acc : list Brick) (w : world) :
  Forall (fun b => brick_status snap b = inl KeyError \/
                   exists z, brick_status snap b = inr z) l ->
  for_each l
    (fun brick online_bricks_list =>
       match split_colon brick with
       | [_; _] =>
           match brick_status snap brick with
           | inl KeyError => ret online_bricks_list
           | inl e => raise e
           | inr status =>
               if status =? 1
               then ret (online_bricks_list ++ [brick])
               else ret online_bricks_list
           end
       | _ => raise ValueError
       end) acc w
  = inr (acc ++ List.filter (has_status snap 1) l, w).
Proof.
  intros Hl. revert acc. induction Hl as [|b l Hb _ IH]; intros acc; simpl.
  - by rewrite app_nil_r.
  - assert (Hsplit : exists n p, split_colon b = [n; p]).
    { unfold brick_status in Hb.
      destruct (split_colon b) as [|n [|p [|? ?]]];
        try (destruct Hb as [Hb|[z Hb]]; discriminate).
      by exists n, p. }
    destruct Hsplit as (n & p & Hsplit). unfold bind at 1. rewrite Hsplit.
    unfold has_status at 1.
    destruct Hb as [Hb|[z Hb]]; rewrite Hb.
    + unfold ret at 1. by rewrite IH.
    + destruct (z =? 1); unfold ret at 1; rewrite IH; [|done].
      by rewrite <-app_assoc.
Qed.

Section Queries.

Variable get_volume_info : string -> string -> option (gmap string volume).

Lemma offline_list_spec (mnode volname : string) (w : world)
    (snap : snapshot) (all_bricks : list Brick) :
  status_at w (queries w) mnode volname = Some snap ->
  get_all_bricks get_volume_info mnode volname = inr (Some all_bricks) ->
  get_offline_bricks_list get_volume_info mnode volname w
  = match statuses snap all_bricks with
    | inl e => inl e
    | inr _ =>
        inr (Some (List.filter (fun b => negb (has_status snap 1 b))
                     all_bricks),
             advance 1 0 w)
    end.
Proof.
  intros Hsnap Hall.
  unfold get_offline_bricks_list, bind at 1, get_volume_status.
  rewrite Hsnap, polled_world, Hall. unfold bind at 1, iterate, ret at 1.
  unfold bind at 1. rewrite offline_loop.
  by destruct (statuses snap all_bricks).
Qed.

(** X3.  When the status and the bricks of the volume can be read,
    [get_offline_bricks_list] returns the bricks whose status is not 1, in
    the order of the volume info; the first brick with a malformed name,
    absent from the status or with an unreadable status makes it raise. *)
Theorem offline_bricks_list_spec (mnode volname : string) (w : world)
    (snap : snapshot) (all_bricks : list Brick) :
  status_at w (queries w) mnode volname = Some snap ->
  get_all_bricks get_volume_info mnode volname = inr (Some all_bricks) ->
  get_offline_bricks_list get_volume_info mnode volname w
  = match statuses snap all_bricks with
    | inl e => inl e
    | inr _ =>
        inr (Some (List.filter (fun b => negb (has_status snap 1 b))
                     all_bricks),
             advance 1 0 w)
    end.
Proof. exact (offline_list_spec mnode volname w snap all_bricks). Qed.

Lemma online_list_spec (mnode volname : string)
    (w : world) (snap : snapshot) (all_bricks : list Brick) :
  status_at w (queries w) mnode volname = Some snap ->
  get_all_bricks get_volume_info mnode volname = inr (Some all_bricks) ->
  Forall (fun b => brick_status snap b = inl KeyError \/
                   exists z, brick_status snap b = inr z) all_bricks ->
  get_online_bricks_list get_volume_info mnode volname w
  = inr (Some (List.filter (has_status snap 1) all_bricks), advance 1 0 w).
Proof.
  intros Hsnap Hall Hread.
  unfold get_online_bricks_list, bind at 1, get_volume_status.
  rewrite Hsnap, polled_world, Hall. unfold bind at 1, iterate, ret at 1.
  unfold bind at 1. by rewrite online_loop.
Qed.

(** X4.  [get_online_bricks_list] returns the bricks whose status is 1,
    in the order of the volume info, and passes over the bricks that are
    absent from the status instead of raising [KeyError]. *)
Theorem online_bricks_list_skips_absent (mnode volname : string)
    (w : world) (snap : snapshot) (all_bricks : list Brick) :
  status_at w (queries w) mnode volname = Some snap ->
  get_all_bricks get_volume_info mnode volname = inr (Some all_bricks) ->
  Forall (fun b => brick_status snap b = inl KeyError \/
                   exists z, brick_status snap b = inr z) all_bricks ->
  get_online_bricks_list get_volume_info mnode volname w
  = inr (Some (List.filter (has_status snap 1) all_bricks), advance 1 0 w).
Proof. exact (online_list_spec mnode volname w snap all_bricks). Qed.

Lemma statuses_readable (snap : snapshot) (l : list Brick) (zs : list Z) :
  statuses snap l = inr zs ->
  Forall (fun b => brick_status snap b = inl KeyError \/
                   exists z, brick_status snap b = inr z) l.
Proof.
  revert zs. induction l as [|b l IH]; intros zs Hzs; [constructor|].
  destruct (statuses_cons_inv _ _ _ _ Hzs) as (z & zs' & -> & Hb & Hl).
  constructor; [right; by exists z|by eapply IH].
Qed.

(** X5.  When every brick of the volume has a readable status, the online
    list and the offline list split the bricks of the volume: together
    they hold each brick once, and no brick is in both. *)
Theorem online_and_offline_lists_partition (mnode volname : string)
    (w : world) (snap : snapshot) (all_bricks : list Brick) (zs : list Z) :
  status_at w (queries w) mnode volname = Some snap ->
  get_all_bricks get_volume_info mnode volname = inr (Some all_bricks) ->
  statuses snap all_bricks = inr zs ->
  exists online offline,
    get_online_bricks_list get_volume_info mnode volname w
    = inr (Some online, advance 1 0 w) /\
    get_offline_bricks_list get_volume_info mnode volname w
    = inr (Some offline, advance 1 0 w) /\
    online ++ offline ≡ₚ all_bricks /\
    forall b, b ∈ online -> b ∉ offline.
Proof.
  intros Hsnap Hall Hzs.
  exists (List.filter (has_status snap 1) all_bricks),
    (List.filter (fun b => negb (has_status snap 1 b)) all_bricks).
  split; [|split; [|split]].
  - apply online_list_spec; try done.
    by eapply statuses_readable.
  - rewrite (offline_list_spec mnode volname w snap all_bricks)
      by done.
    by rewrite Hzs.
  - apply filter_complement_Permutation.
  - intros b Hon Hoff.
    apply list_elem_of_In, filter_In in Hon as [_ Hon].
    apply list_elem_of_In, filter_In in Hoff as [_ Hoff].
    rewrite Hon in Hoff. discriminate.
Qed.

Lemma statuses_of_online (snap : snapshot) (l : list Brick) :
  exists zs, statuses snap (List.filter (has_status snap 1) l) = inr zs /\
             forallb (fun z => z =? 1) zs = true.
Proof.
  induction l as [|b l (zs & IH & Hall)]; simpl; [by exists []|].
  destruct (has_status snap 1 b) eqn:Hb; [|by exists zs].
  unfold has_status in Hb. simpl.
  destruct (brick_status snap b) as [e|z]; [discriminate|].
  rewrite IH. exists (z :: zs). simpl. by rewrite Hb, Hall.
Qed.

(** X6.  The list [get_online_bricks_list] returns passes
    [are_bricks_online] as long as the status of the volume has not
    changed between the two queries. *)
Theorem online_bricks_list_is_online (mnode volname : string)
    (w : world) (snap : snapshot) (all_bricks : list Brick) :
  status_at w (queries w) mnode volname = Some snap ->
  status_at w (S (queries w)) mnode volname = Some snap ->
  get_all_bricks get_volume_info mnode volname = inr (Some all_bricks) ->
  Forall (fun b => brick_status snap b = inl KeyError \/
                   exists z, brick_status snap b = inr z) all_bricks ->
  exists online,
    get_online_bricks_list get_volume_info mnode volname w
    = inr (Some online, advance 1 0 w) /\
    are_bricks_online mnode volname online (advance 1 0 w)
    = inr (VBool true, advance 1 0 (advance 1 0 w)).
Proof.
  intros Hsnap Hnext Hall Hread.
  exists (List.filter (has_status snap 1) all_bricks).
  split; [by apply online_list_spec|].
  destruct (status_verdicts mnode volname
              (List.filter (has_status snap 1) all_bricks)
              (advance 1 0 w) snap) as [-> _].
  { simpl. by rewrite Nat.add_1_r. }
  destruct (statuses_of_online snap all_bricks) as (zs & -> & ->).
  reflexivity.
Qed.

(** X7.  When the status can be fetched but [get_all_bricks] returns
    [None], both list functions raise [TypeError] (they iterate over
    [None]) instead of returning [None]. *)
Theorem brick_lists_raise_without_bricks (mnode volname : string)
    (w : world) (snap : snapshot) :
  status_at w (queries w) mnode volname = Some snap ->
  get_all_bricks get_volume_info mnode volname = inr None ->
  get_online_bricks_list get_volume_info mnode volname w = inl TypeError /\
  get_offline_bricks_list get_volume_info mnode volname w = inl TypeError.
Proof.
  intros Hsnap Hall.
  unfold get_online_bricks_list, get_offline_bricks_list, bind,
    get_volume_status.
  by rewrite Hsnap, Hall.
Qed.

End Queries.

Lemma offline_bricks_list_spec_witness :
  get_offline_bricks_list MoreExamples.two_brick_volume "s1" "testvol"
    MoreExamples.one_up_one_down
  = inr (Some ["s2:/b"%string], advance 1 0 MoreExamples.one_up_one_down) /\
  get_offline_bricks_list MoreExamples.two_brick_volume "s1" "testvol"
    MoreExamples.one_up_one_absent
  = inl KeyError.
Proof.
  split.
  - rewrite (offline_bricks_list_spec MoreExamples.two_brick_volume
               "s1" "testvol" MoreExamples.one_up_one_down
               (<["s2"%string := {["/b"%string := VStr "0"]}]>
                  (Examples.one_brick (VStr "1")))
               ["s1:/b"; "s2:/b"]%string) by reflexivity.
    reflexivity.
  - rewrite (offline_bricks_list_spec MoreExamples.two_brick_volume
               "s1" "testvol" MoreExamples.one_up_one_absent
               (Examples.one_brick (VStr "1"))
               ["s1:/b"; "s2:/b"]%string) by reflexivity.
    reflexivity.
Defined.

Lemma online_bricks_list_skips_absent_witness :
  get_online_bricks_list MoreExamples.two_brick_volume "s1" "testvol"
    MoreExamples.one_up_one_absent
  = inr (Some ["s1:/b"%string], advance 1 0 MoreExamples.one_up_one_absent).
Proof.
  rewrite (online_bricks_list_skips_absent MoreExamples.two_brick_volume
             "s1" "testvol" MoreExamples.one_up_one_absent
             (Examples.one_brick (VStr "1")) ["s1:/b"; "s2:/b"]%string).
  - reflexivity.
  - reflexivity.
  - reflexivity.
  - constructor; [right; by exists 1|].
    constructor; [by left|]. constructor.
Defined.

Lemma online_and_offline_lists_partition_witness :
  exists online offline,
    get_online_bricks_list MoreExamples.two_brick_volume "s1" "testvol"
      MoreExamples.one_up_one_down
    = inr (Some online, advance 1 0 MoreExamples.one_up_one_down) /\
    get_offline_bricks_list MoreExamples.two_brick_volume "s1" "testvol"
      MoreExamples.one_up_one_down
    = inr (Some offline, advance 1 0 MoreExamples.one_up_one_down) /\
    online ++ offline ≡ₚ ["s1:/b"; "s2:/b"]%string /\
    forall b, b ∈ online -> b ∉ offline.
Proof.
  apply (online_and_offline_lists_partition MoreExamples.two_brick_volume
           "s1" "testvol" MoreExamples.one_up_one_down
           (<["s2"%string := {["/b"%string := VStr "0"]}]>
              (Examples.one_brick (VStr "1")))
           ["s1:/b"; "s2:/b"]%string [1; 0]); reflexivity.
Defined.

Lemma online_bricks_list_is_online_witness :
  exists online,
    get_online_bricks_list MoreExamples.two_brick_volume "s1" "testvol"
      MoreExamples.one_up_one_absent
    = inr (Some online, advance 1 0 MoreExamples.one_up_one_absent) /\
    are_bricks_online "s1" "testvol" online
      (advance 1 0 MoreExamples.one_up_one_absent)
    = inr (VBool true,
           advance 1 0 (advance 1 0 MoreExamples.one_up_one_absent)).
Proof.
  apply (online_bricks_list_is_online MoreExamples.two_brick_volume
           "s1" "testvol" MoreExamples.one_up_one_absent
           (Examples.one_brick (VStr "1")) ["s1:/b"; "s2:/b"]%string).
  - reflexivity.
  - reflexivity.
  - reflexivity.
  - constructor; [right; by exists 1|].
    constructor; [by left|]. constructor.
Defined.

(** A volume info whose entry for the volume has no ['bricks'] key. *)
Lemma brick_lists_raise_without_bricks_witness :
  get_online_bricks_list
    (fun _ _ => Some {[ "testvol"%string :=
                          {| typeStr := Some "Distribute"%string;
                             bricks := None |} ]})
    "s1" "testvol" Examples.brick_up = inl TypeError /\
  get_offline_bricks_list
    (fun _ _ => Some {[ "testvol"%string :=
                          {| typeStr := Some "Distribute"%string;
                             bricks := None |} ]})
    "s1" "testvol" Examples.brick_up = inl TypeError.
Proof.
  apply (brick_lists_raise_without_bricks _ "s1" "testvol" Examples.brick_up
           (Examples.one_brick (VStr "1"))); reflexivity.
Defined.

End BrickLists.

(** ** The bricks of a volume *)

Module VolumeBricks.

Import Py Random BrickLibs Vocabulary VolumeInfo MoreVocabulary.

Lemma brick_names_spec (l : list brick_info) (acc : list Brick) :
  brick_names l acc
  = if forallb has_name l then Some (acc ++ omap name l) else None.
Proof.
  revert acc. induction l as [|b l IH]; intros acc; simpl.
  - by rewrite app_nil_r.
  - unfold has_name at 1. destruct (name b) as [n|]; simpl; [|done].
    rewrite IH. destruct (forallb has_name l); [|done].
    by rewrite <-app_assoc.
Qed.

Section Queries.

Variable get_volume_info : string -> string -> option (gmap string volume).

(** X8.  For a volume whose type does not contain ['Tier'] and whose info
    lists brick entries, [get_all_bricks] returns the names of all the
    entries, in order, when every entry has a name, and [None] otherwise:
    never a part of the list. *)
Theorem all_bricks_of_plain_volume (mnode volname : string)
    (volinfo : gmap string volume) (v : volume) (t : string)
    (bs : bricks_section) (l : list brick_info) :
  get_volume_info mnode volname = Some volinfo ->
  volinfo !! volname = Some v ->
  typeStr v = Some t ->
  contains "Tier" (VStr t) = inr false ->
  bricks v = Some bs ->
  brick bs = Some l ->
  get_all_bricks get_volume_info mnode volname
  = inr (if forallb has_name l then Some (omap name l) else None).
Proof.
  intros Hinfo Hv Ht Htier Hbs Hl.
  unfold get_all_bricks, type_of. rewrite Hinfo, Hv, Ht, Htier, Hbs, Hl.
  by rewrite brick_names_spec.
Qed.

Lemma tier_bricks_spec (section : option tier_section) :
  match section with
  | Some sec =>
      match tier_brick sec with
      | Some l => inr (brick_names l [])
      | None => inr None
      end
  | None => inr (Some [])
  end
  = (inr match section_entries section with
         | Some l => if forallb has_name l then Some (omap name l) else None
         | None => None
         end : exn + option (list Brick)).
Proof.
  destruct section as [[[l|]]|]; simpl; try done.
  by rewrite brick_names_spec.
Qed.

(** X9.  For a volume whose type contains ['Tier'], [get_all_bricks]
    returns the names of the hot tier entries followed by the names of the
    cold tier entries.  An absent ['hotBricks'] or ['coldBricks'] section
    counts as no brick; a section without the key ['brick'], or an entry
    without a name, makes the result [None]. *)
Theorem all_bricks_of_tiered_volume (mnode volname : string)
    (volinfo : gmap string volume) (v : volume) (t : string)
    (bs : bricks_section) :
  get_volume_info mnode volname = Some volinfo ->
  volinfo !! volname = Some v ->
  typeStr v = Some t ->
  contains "Tier" (VStr t) = inr true ->
  bricks v = Some bs ->
  get_all_bricks get_volume_info mnode volname
  = inr match section_entries (hotBricks bs),
              section_entries (coldBricks bs) with
        | Some hot, Some cold =>
            if forallb has_name (hot ++ cold)
            then Some (omap name (hot ++ cold))
            else None
        | _, _ => None
        end.
Proof.
  intros Hinfo Hv Ht Htier Hbs.
  unfold get_all_bricks, get_hot_tier_bricks, get_cold_tier_bricks, type_of.
  rewrite Hinfo, Hv, Ht, Htier, Hbs.
  rewrite (tier_bricks_spec (hotBricks bs)),
    (tier_bricks_spec (coldBricks bs)).
  destruct (section_entries (hotBricks bs)) as [hot|]; [|done].
  destruct (section_entries (coldBricks bs)) as [cold|].
  - rewrite forallb_app, omap_app.
    destruct (forallb has_name hot); [|done].
    simpl. by destruct (forallb has_name cold).
  - by destruct (forallb has_name hot).
Qed.

(** X10.  For a tiered volume whose bricks section has neither
    ['hotBricks'] nor ['coldBricks'], [get_all_bricks] returns the empty
    list, and [wait_for_bricks_to_be_online] then returns [False] at once:
    no status query, no sleep, whatever the timeout. *)
Theorem tier_without_sections_is_never_awaited (mnode volname : string)
    (volinfo : gmap string volume) (v : volume) (t : string)
    (bs : bricks_section) (timeout : Z) (w : world) :
  get_volume_info mnode volname = Some volinfo ->
  volinfo !! volname = Some v ->
  typeStr v = Some t ->
  contains "Tier" (VStr t) = inr true ->
  bricks v = Some bs ->
  hotBricks bs = None ->
  coldBricks bs = None ->
  get_all_bricks get_volume_info mnode volname = inr (Some []) /\
  wait_for_bricks_to_be_online (Some []) mnode volname timeout w
  = inr (Some false, w).
Proof.
  intros Hinfo Hv Ht Htier Hbs Hhot Hcold. split; [|reflexivity].
  unfold get_all_bricks, get_hot_tier_bricks, get_cold_tier_bricks, type_of.
  by rewrite Hinfo, Hv, Ht, Htier, Hbs, Hhot, Hcold.
Qed.

End Queries.

Lemma all_bricks_of_plain_volume_witness :
  get_all_bricks MoreExamples.two_brick_volume "s1" "testvol"
  = inr (Some ["s1:/b"; "s2:/b"]%string).
Proof.
  erewrite (all_bricks_of_plain_volume MoreExamples.two_brick_volume
             "s1" "testvol" _ _ "Distribute" _
             [MoreExamples.named "s1:/b"; MoreExamples.named "s2:/b"]);
    reflexivity.
Defined.

Lemma all_bricks_of_tiered_volume_witness :
  get_all_bricks MoreExamples.tiered_info "s1" "testvol"
  = inr (Some ["h1:/hot"; "s1:/b"; "s2:/b"]%string).
Proof.
  erewrite (all_bricks_of_tiered_volume MoreExamples.tiered_info
             "s1" "testvol" _ _ "Tier"
             {| brick := None;
                hotBricks :=
                  Some {| tier_brick := Some [MoreExamples.named "h1:/hot"] |};
                coldBricks :=
                  Some {| tier_brick :=
                            Some [MoreExamples.named "s1:/b";
                                  MoreExamples.named "s2:/b"] |} |});
    reflexivity.
Defined.

Lemma tier_without_sections_is_never_awaited_witness :
  get_all_bricks MoreExamples.tier_without_sections "s1" "testvol"
  = inr (Some []) /\
  wait_for_bricks_to_be_online (Some []) "s1" "testvol" 300 Examples.brick_up
  = inr (Some false, Examples.brick_up).
Proof.
  eapply (tier_without_sections_is_never_awaited
            MoreExamples.tier_without_sections "s1" "testvol" _ _ "Tier"
           {| brick := None; hotBricks := None; coldBricks := None |}
           300 Examples.brick_up); reflexivity.
Defined.

End VolumeBricks.

(** ** More on the wait loop *)

Module PollerMore.

Import Py Random BrickLibs Vocabulary VolumeInfo MoreVocabulary Poller
  BrickStatus.

Lemma world_eta (w : world) :
  {| slept := slept w; queries := queries w; status_at := status_at w |} = w.
Proof. by destruct w. Qed.

Lemma wait_loop_turns_online (mnode volname : string) (bs : list Brick)
    (timeout : Z) (k : nat) :
  forall (fuel : nat) (counter : Z) (w : world),
    (k < fuel)%nat ->
    counter + 10 * Z.of_nat k < timeout ->
    (forall n, (queries w <= n < queries w + k)%nat ->
       not_online_at (status_at w) mnode volname bs n) ->
    online_at (status_at w) mnode volname bs (queries w + k) ->
    wait_loop fuel mnode volname bs timeout counter w
    = inr (Some true, advance (S k) (10 * Z.of_nat k) w).
Proof.
  induction k as [|k IH]; intros fuel counter w Hfuel Hlt Hoff Hon;
    (destruct fuel as [|fuel]; [lia|]).
  - simpl. destruct (Z.ltb_spec counter timeout); [|lia].
    specialize (Hon (slept w)). rewrite Nat.add_0_r, world_eta in Hon.
    unfold bind. rewrite Hon. simpl. unfold ret, advance.
    do 3 f_equal; lia.
  - destruct (Hoff (queries w) ltac:(lia) (slept w)) as (st & Hpoll & Hfalse).
    rewrite world_eta, polled_world in Hpoll.
    assert (Hc : counter < timeout) by lia.
    rewrite (wait_loop_not_online fuel _ _ _ _ _ _ st Hc Hpoll Hfalse).
    rewrite IH; simpl; try lia.
    + unfold advance. simpl. do 3 f_equal; lia.
    + intros n Hn. apply Hoff. lia.
    + replace (queries w + 1 + k)%nat with (queries w + S k)%nat by lia.
      done.
Qed.

(** X11.  When the first [k] polls do not find the bricks online (a brick
    is offline or the status cannot be fetched) and the next one does, and
    that poll is still within the timeout ([10 * k < timeout]), the wait
    returns [True] after [k + 1] status queries and [10 * k] seconds of
    sleep. *)
Theorem wait_returns_at_first_online_poll (mnode volname : string)
    (b : Brick) (bs : list Brick) (timeout : Z) (k : nat) (w : world) :
  10 * Z.of_nat k < timeout ->
  (forall n, (queries w <= n < queries w + k)%nat ->
     not_online_at (status_at w) mnode volname (b :: bs) n) ->
  online_at (status_at w) mnode volname (b :: bs) (queries w + k) ->
  wait_for_bricks_to_be_online (Some (b :: bs)) mnode volname timeout w
  = inr (Some true, advance (S k) (10 * Z.of_nat k) w).
Proof.
  intros Hlt Hoff Hon. unfold wait_for_bricks_to_be_online, bind.
  by rewrite (wait_loop_turns_online mnode volname (b :: bs) timeout k)
    by (try done; lia).
Qed.

Lemma wait_returns_at_first_online_poll_witness :
  wait_for_bricks_to_be_online (Some ["s1:/b"%string]) "s1" "testvol" 25
    {| slept := 0; queries := 0;
       status_at := fun n _ _ =>
         if (n <? 2)%nat then None
         else Some (Examples.one_brick (VStr "1")) |}
  = inr (Some true,
         advance 3 (10 * Z.of_nat 2)
           {| slept := 0; queries := 0;
              status_at := fun n _ _ =>
                if (n <? 2)%nat then None
                else Some (Examples.one_brick (VStr "1")) |}).
Proof.
  apply (wait_returns_at_first_online_poll "s1" "testvol" "s1:/b" [] 25 2).
  - simpl. lia.
  - intros n Hn t. exists VNone. simpl in Hn.
    assert (n = 0 \/ n = 1)%nat as [-> | ->] by lia; split; reflexivity.
  - intros t. reflexivity.
Defined.

(** X12.  With a timeout of zero or less the wait issues no status query
    and returns [False], whatever the bricks and their status. *)
Theorem wait_without_time_returns_false (all_bricks : option (list Brick))
    (mnode volname : string) (timeout : Z) (w : world) :
  timeout <= 0 ->
  wait_for_bricks_to_be_online all_bricks mnode volname timeout w
  = inr (Some false, w).
Proof.
  intros Ht. unfold wait_for_bricks_to_be_online.
  destruct all_bricks as [[|b bs]|]; try reflexivity.
  unfold bind. simpl. by destruct (Z.ltb_spec 0 timeout); [lia|].
Qed.

Lemma wait_without_time_returns_false_witness :
  wait_for_bricks_to_be_online (Some ["s1:/b"%string]) "s1" "testvol" 0
    Examples.brick_up
  = inr (Some false, Examples.brick_up).
Proof.
  apply (wait_without_time_returns_false (Some ["s1:/b"%string])
           "s1" "testvol" 0 Examples.brick_up).
  lia.
Defined.

Lemma wait_loop_bounds (mnode volname : string) (bs : list Brick)
    (timeout : Z) (fuel : nat) :
  forall (counter : Z) (w w' : world) (flag : bool),
    wait_loop fuel mnode volname bs timeout counter w
    = inr (Some flag, w') ->
    exists q : nat,
      w' = advance q (10 * (Z.of_nat q - (if flag then 1 else 0))) w /\
      (q = O \/ counter + 10 * (Z.of_nat q - 1) < timeout) /\
      (flag = true -> (1 <= q)%nat).
Proof.
  induction fuel as [|fuel IH]; intros counter w w' flag; [discriminate|].
  simpl. destruct (Z.ltb_spec counter timeout) as [Hlt|Hge].
  - unfold bind at 1.
    destruct (are_bricks_online mnode volname bs w) as [e|[st w1]] eqn:Hpoll;
      [discriminate|].
    apply are_bricks_online_world in Hpoll as [-> _].
    destruct (truthy st).
    + intros [= <- <-]. exists 1%nat. split; [|split; [right; lia|done]].
      unfold advance. f_equal; lia.
    + unfold bind, sleep. intros Hrest.
      apply IH in Hrest as (q & -> & Hq & Hflag).
      exists (S q). split; [|split; [right|]].
      * unfold advance. simpl. f_equal; [|lia].
        destruct flag; [specialize (Hflag eq_refl)|]; lia.
      * destruct Hq as [->|Hq]; lia.
      * lia.
  - intros [= <- <-]. exists O. split; [|split; [by left|done]].
    unfold advance. destruct w. simpl. f_equal; lia.
Qed.

(** X13.  Whatever the cluster answers, when the wait returns it has
    issued [q] status queries with [10 * (q - 1) < timeout] (none beyond
    the ceiling of [timeout / 10]) and slept ten seconds after each poll
    that did not find the bricks online: [10 * q] seconds when it returns
    [False], [10 * (q - 1)] when it returns [True]. *)
Theorem wait_is_bounded (all_bricks : option (list Brick))
    (mnode volname : string) (timeout : Z) (w w' : world)
    (result : option bool) :
  wait_for_bricks_to_be_online all_bricks mnode volname timeout w
  = inr (result, w') ->
  exists (flag : bool) (q : nat),
    result = Some flag /\
    w' = advance q (10 * (Z.of_nat q - (if flag then 1 else 0))) w /\
    (q = O \/ 10 * (Z.of_nat q - 1) < timeout) /\
    (flag = true -> (1 <= q)%nat).
Proof.
  unfold wait_for_bricks_to_be_online.
  assert (Hnone : forall r, (inr (Some false, w) : exn + _) = inr (r, w') ->
            exists (flag : bool) (q : nat),
              r = Some flag /\
              w' = advance q (10 * (Z.of_nat q - (if flag then 1 else 0))) w /\
              (q = O \/ 10 * (Z.of_nat q - 1) < timeout) /\
              (flag = true -> (1 <= q)%nat)).
  { intros r [= <- <-]. exists false, O.
    split; [done|]. split; [|split; [by left|done]].
    unfold advance. destruct w. simpl. f_equal; lia. }
  destruct all_bricks as [[|b bs]|]; [apply Hnone| |apply Hnone].
  unfold bind.
  destruct (wait_loop _ _ _ _ _ _ _) as [e|[[flag|] w1]] eqn:Hloop;
    [discriminate| |].
  - apply wait_loop_bounds in Hloop as (q & -> & Hq & Hflag).
    destruct flag; intros [= <- <-]; eexists _, q; repeat split; try done;
      destruct Hq; auto.
  - apply wait_loop_out_of_fuel in Hloop as [?|Hloop]; lia.
Qed.

Lemma wait_is_bounded_witness :
  exists (flag : bool) (q : nat),
    Some false = Some flag /\
    advance 3 30 Examples.brick_down
    = advance q (10 * (Z.of_nat q - (if flag then 1 else 0)))
        Examples.brick_down /\
    (q = O \/ 10 * (Z.of_nat q - 1) < 25) /\
    (flag = true -> (1 <= q)%nat).
Proof.
  apply (wait_is_bounded (Some ["s1:/b"%string]) "s1" "testvol" 25
           Examples.brick_down (advance 3 30 Examples.brick_down)
           (Some false)).
  reflexivity.
Defined.

End PollerMore.

(** ** More on the selection *)

Module SelectionMore.

Import Py Random BrickLibs Vocabulary RandomFacts SelectionFacts Selection.
Import MoreVocabulary.

(** The selection from a replicated topology as the picks of its groups. *)
Lemma replicated_picks py (subvols_list : list Subvol) (replica_count : val)
    (quorum_info : gmap string val)
    (applicable quorum_type quorum_count : val) (limit : Z) (r : source) :
  quorum_info !! "is_quorum_applicable" = Some applicable ->
  quorum_info !! "quorum_type" = Some quorum_type ->
  quorum_info !! "quorum_count" = Some quorum_count ->
  truthy applicable = true ->
  offline_bricks_limit py replica_count quorum_type quorum_count r
  = inr (Some limit, r) ->
  1 <= limit ->
  Forall (fun g => Z.of_nat (length g) >= limit) subvols_list ->
  exists ps r',
    get_bricks_to_bring_offline_from_replicated_volume
      py subvols_list replica_count quorum_info r = inr (concat ps, r') /\
    Forall2 (group_pick limit) subvols_list ps.
Proof.
  intros Ha Ht Hc Htrue Hlimit Hpos Hsize.
  unfold get_bricks_to_bring_offline_from_replicated_volume.
  rewrite Ha, Ht, Hc, Htrue. unfold bind at 1. rewrite Hlimit.
  destruct (for_each_picks limit (select_from_subvol limit) subvols_list)
    with (acc := @nil Brick) (r := r) as (ps & r' & -> & Hps); [|done|].
  { intros g acc r0 Hg. by apply select_from_subvol_spec. }
  by exists ps, r'.
Qed.

Lemma picks_length limit (gs ps : list (list Brick)) :
  Forall2 (group_pick limit) gs ps ->
  Z.of_nat (length gs) <= Z.of_nat (length (concat ps))
  <= limit * Z.of_nat (length gs).
Proof.
  induction 1 as [|g p gs ps [Hlen _] _ IH]; simpl; [lia|].
  rewrite length_app. lia.
Qed.

(** X14.  When the quorum info lacks one of the keys
    ['is_quorum_applicable'], ['quorum_type'] and ['quorum_count'], the
    selection from a replicated topology is empty and nothing is drawn. *)
Theorem missing_quorum_key_selects_nothing py (subvols_list : list Subvol)
    (replica_count : val) (quorum_info : gmap string val) (r : source) :
  quorum_info !! "is_quorum_applicable" = None \/
  quorum_info !! "quorum_type" = None \/
  quorum_info !! "quorum_count" = None ->
  get_bricks_to_bring_offline_from_replicated_volume
    py subvols_list replica_count quorum_info r = inr ([], r).
Proof.
  intros Hmiss. unfold get_bricks_to_bring_offline_from_replicated_volume.
  destruct Hmiss as [->|[->| ->]]; [done| |].
  - by destruct (quorum_info !! "is_quorum_applicable").
  - by destruct (quorum_info !! "is_quorum_applicable"),
      (quorum_info !! "quorum_type").
Qed.

Lemma missing_quorum_key_selects_nothing_witness :
  get_bricks_to_bring_offline_from_replicated_volume
    Python2 Examples.two_groups_of_three (VStr "3")
    (<["quorum_type" := VStr "auto"]>
       (<["is_quorum_applicable" := VBool true]> ∅))
    Examples.counting = inr ([], Examples.counting).
Proof.
  apply (missing_quorum_key_selects_nothing Python2
           Examples.two_groups_of_three (VStr "3")
           (<["quorum_type" := VStr "auto"]>
              (<["is_quorum_applicable" := VBool true]> ∅))
           Examples.counting).
  right. right. reflexivity.
Defined.

(** X15.  In a replicated topology with an offline limit [limit >= 1] and
    groups of at least [limit] bricks, the selection is the concatenation,
    in group order, of one pick per group; every pick holds between 1 and
    [limit] bricks taken at distinct positions of its group.  So at least
    one brick of every group goes offline, and the selection holds between
    (number of groups) and [limit] * (number of groups) bricks. *)
Theorem replicated_selection_size py
    (subvols_list : list Subvol) (replica_count : val)
    (quorum_info : gmap string val)
    (applicable quorum_type quorum_count : val) (limit : Z) (r : source) :
  quorum_info !! "is_quorum_applicable" = Some applicable ->
  quorum_info !! "quorum_type" = Some quorum_type ->
  quorum_info !! "quorum_count" = Some quorum_count ->
  truthy applicable = true ->
  offline_bricks_limit py replica_count quorum_type quorum_count r
  = inr (Some limit, r) ->
  1 <= limit ->
  Forall (fun g => Z.of_nat (length g) >= limit) subvols_list ->
  exists picks r',
    get_bricks_to_bring_offline_from_replicated_volume
      py subvols_list replica_count quorum_info r
    = inr (concat picks, r') /\
    Forall2 (fun g p => 1 <= Z.of_nat (length p) <= limit /\ p ⊆+ g)
      subvols_list picks /\
    Z.of_nat (length subvols_list) <= Z.of_nat (length (concat picks))
    <= limit * Z.of_nat (length subvols_list).
Proof.
  intros Ha Ht Hc Htrue Hlimit Hpos Hsize.
  destruct (replicated_picks py subvols_list replica_count quorum_info
              applicable quorum_type quorum_count limit r)
    as (ps & r' & Hsel & Hps); try done.
  exists ps, r'. split; [done|]. split; [exact Hps|]. by apply picks_length.
Qed.

Lemma replicated_selection_size_witness :
  exists picks r',
    get_bricks_to_bring_offline_from_replicated_volume
      Python3 Examples.two_groups_of_three (VStr "3")
      (Examples.quorum_info (VBool true) (VStr "auto") VNone)
      Examples.counting = inr (concat picks, r') /\
    Forall2 (fun g p => 1 <= Z.of_nat (length p) <= 2 /\ p ⊆+ g)
      Examples.two_groups_of_three picks /\
    Z.of_nat (length Examples.two_groups_of_three)
    <= Z.of_nat (length (concat picks))
    <= 2 * Z.of_nat (length Examples.two_groups_of_three).
Proof.
  apply (replicated_selection_size Python3
           Examples.two_groups_of_three (VStr "3")
           (Examples.quorum_info (VBool true) (VStr "auto") VNone)
           (VBool true) (VStr "auto") VNone 2 Examples.counting).
  - reflexivity.
  - reflexivity.
  - reflexivity.
  - reflexivity.
  - reflexivity.
  - lia.
  - repeat constructor; simpl; lia.
Defined.

(** X16.  With a redundancy count below 1 the selection from a disperse
    topology raises [ValueError] on the first group
    ([random.randint(1, redundancy_count)] has an empty range); with no
    group at all it returns the empty list. *)
Theorem disperse_without_redundancy_raises (g : Subvol) (gs : list Subvol)
    (redundancy_count : val) (R : Z) (r : source) :
  int redundancy_count = inr R ->
  R < 1 ->
  get_bricks_to_bring_offline_from_disperse_volume
    (g :: gs) redundancy_count r = inl ValueError /\
  get_bricks_to_bring_offline_from_disperse_volume [] redundancy_count r
  = inr ([], r).
Proof.
  intros HR Hlt. split; [|reflexivity].
  unfold get_bricks_to_bring_offline_from_disperse_volume. simpl.
  unfold bind at 1. unfold bind at 1.
  destruct (shuffle_spec g r) as (g' & r1 & -> & _).
  unfold bind at 1, lift. rewrite HR. unfold bind at 1.
  by rewrite randint_empty.
Qed.

Lemma disperse_without_redundancy_raises_witness :
  get_bricks_to_bring_offline_from_disperse_volume
    Examples.one_group_of_six (VStr "0") Examples.counting = inl ValueError /\
  get_bricks_to_bring_offline_from_disperse_volume [] (VStr "0")
    Examples.counting = inr ([], Examples.counting).
Proof.
  apply (disperse_without_redundancy_raises _ [] (VStr "0") 0
           Examples.counting).
  - reflexivity.
  - lia.
Defined.

(** X17.  When the volume info cannot be read,
    [select_bricks_to_bring_offline] returns the dictionary with
    ['is_tier'] false and the three brick lists empty, and
    [select_tier_volume_bricks_to_bring_offline] the dictionary with the
    two tier lists empty; nothing is drawn and no other query is made. *)
Theorem unknown_volume_selects_nothing py (c : cluster)
    (mnode volname : string) (r : source) :
  get_volume_info c mnode volname = None ->
  select_bricks_to_bring_offline py c mnode volname r
  = inr (default_selection, r) /\
  select_tier_volume_bricks_to_bring_offline py c mnode volname r
  = inr (<["cold_tier_bricks" := VList []]>
           (<["hot_tier_bricks" := VList []]> ∅), r).
Proof.
  intros Hinfo.
  unfold select_bricks_to_bring_offline,
    select_tier_volume_bricks_to_bring_offline.
  by rewrite Hinfo.
Qed.

(** X18.  For a volume that is not tiered, the dictionary
    [select_bricks_to_bring_offline] returns has the four keys of the
    default, ['is_tier'] false, both tier lists empty, and under
    ['volume_bricks'] the list [select_volume_bricks_to_bring_offline]
    selected. *)
Theorem plain_volume_selection_shape py (c : cluster)
    (mnode volname : string) (r r' : source) (selected : list Brick) :
  is_Some (get_volume_info c mnode volname) ->
  is_tiered_volume c mnode volname = false ->
  select_volume_bricks_to_bring_offline py c mnode volname r
  = inr (selected, r') ->
  exists d : gmap string val,
    select_bricks_to_bring_offline py c mnode volname r = inr (d, r') /\
    dom d = {["is_tier"; "hot_tier_bricks"; "cold_tier_bricks";
              "volume_bricks"]} /\
    d !! "is_tier" = Some (VBool false) /\
    d !! "hot_tier_bricks" = Some (VList []) /\
    d !! "cold_tier_bricks" = Some (VList []) /\
    d !! "volume_bricks" = Some (VList selected).
Proof.
  intros [u Hinfo] Htier Hsel.
  unfold select_bricks_to_bring_offline. rewrite Hinfo, Htier.
  unfold bind. rewrite Hsel. eexists. split; [reflexivity|].
  split; [|by repeat split].
  rewrite !dom_insert_L, dom_empty_L. set_solver.
Qed.

(** X19.  For a volume of type ['Replicate'] or ['Distributed-Replicate']
    that is not tiered, with applicable quorum, an offline limit
    [limit >= 1], groups of at least [limit] bricks and no brick listed
    twice, [select_bricks_to_bring_offline] returns a dictionary whose
    ['volume_bricks'] list holds, of every group, at least one and at most
    [limit] bricks, all different. *)
Theorem replicated_volume_selection_is_safe py (c : cluster)
    (mnode volname : string) (info : type_info) (q : quorum)
    (applicable quorum_type quorum_count : val) (limit : Z) (r : source) :
  is_Some (get_volume_info c mnode volname) ->
  is_tiered_volume c mnode volname = false ->
  get_volume_type_info c mnode volname = Some info ->
  typeStr (volume_type_info info) = "Replicate"%string \/
  typeStr (volume_type_info info) = "Distributed-Replicate"%string ->
  get_client_quorum_info c mnode volname = Some q ->
  volume_quorum_info q !! "is_quorum_applicable" = Some applicable ->
  volume_quorum_info q !! "quorum_type" = Some quorum_type ->
  volume_quorum_info q !! "quorum_count" = Some quorum_count ->
  truthy applicable = true ->
  offline_bricks_limit py (replicaCount (volume_type_info info))
    quorum_type quorum_count r = inr (Some limit, r) ->
  1 <= limit ->
  Forall (fun g => Z.of_nat (length g) >= limit)
    (volume_subvols (get_subvols c mnode volname)) ->
  NoDup (concat (volume_subvols (get_subvols c mnode volname))) ->
  exists (d : gmap string val) (selected : list Brick) (r' : source),
    select_bricks_to_bring_offline py c mnode volname r = inr (d, r') /\
    d !! "volume_bricks" = Some (VList selected) /\
    forall g, g ∈ volume_subvols (get_subvols c mnode volname) ->
      let chosen := filter (.∈ g) selected in
      1 <= Z.of_nat (length chosen) <= limit /\ NoDup chosen.
Proof.
  intros [u Hinfo] Htier Htype Hrep Hq Ha Ht Hc Htrue Hlimit Hpos Hsize Hnd.
  destruct (replicated_picks py
              (volume_subvols (get_subvols c mnode volname))
              (replicaCount (volume_type_info info)) (volume_quorum_info q)
              applicable quorum_type quorum_count limit r)
    as (ps & r' & Hsel & Hps); try done.
  assert (Hvol : select_volume_bricks_to_bring_offline py c mnode volname r
                 = inr (concat ps, r')).
  { unfold select_volume_bricks_to_bring_offline. rewrite Htier.
    unfold bind at 1. rewrite Htype. simpl.
    destruct Hrep as [-> | ->]; simpl; unfold bind at 1; by rewrite Hq. }
  unfold select_bricks_to_bring_offline. rewrite Hinfo, Htier.
  unfold bind. rewrite Hvol. eexists _, (concat ps), r'.
  split; [reflexivity|]. split; [reflexivity|].
  by apply (selection_of_picks limit
              (volume_subvols (get_subvols c mnode volname))).
Qed.

Lemma unknown_volume_selects_nothing_witness :
  select_bricks_to_bring_offline Python2
    {| get_volume_info := fun _ _ => None;
       is_tiered_volume := is_tiered_volume Examples.tiered_volume;
       get_volume_type_info := fun _ _ => None;
       get_subvols := get_subvols Examples.tiered_volume;
       get_client_quorum_info := fun _ _ => None |}
    "s1" "nosuchvol" Examples.counting
  = inr (default_selection, Examples.counting) /\
  select_tier_volume_bricks_to_bring_offline Python2
    {| get_volume_info := fun _ _ => None;
       is_tiered_volume := is_tiered_volume Examples.tiered_volume;
       get_volume_type_info := fun _ _ => None;
       get_subvols := get_subvols Examples.tiered_volume;
       get_client_quorum_info := fun _ _ => None |}
    "s1" "nosuchvol" Examples.counting
  = inr (<["cold_tier_bricks" := VList []]>
           (<["hot_tier_bricks" := VList []]> ∅), Examples.counting).
Proof.
  apply (unknown_volume_selects_nothing Python2 _ "s1" "nosuchvol"
           Examples.counting).
  reflexivity.
Defined.

Lemma plain_volume_selection_shape_witness :
  exists d : gmap string val,
    select_bricks_to_bring_offline Python2
      (Examples.plain_volume "Distribute" (VStr "1")
         [["s1:/b"]; ["s2:/b"]]%string Examples.no_quorum)
      "s1" "testvol" Examples.counting = inr (d, Examples.counting) /\
    dom d = {["is_tier"; "hot_tier_bricks"; "cold_tier_bricks";
              "volume_bricks"]} /\
    d !! "is_tier" = Some (VBool false) /\
    d !! "hot_tier_bricks" = Some (VList []) /\
    d !! "cold_tier_bricks" = Some (VList []) /\
    d !! "volume_bricks" = Some (VList []).
Proof.
  apply (plain_volume_selection_shape Python2
           (Examples.plain_volume "Distribute" (VStr "1")
              [["s1:/b"]; ["s2:/b"]]%string Examples.no_quorum)
           "s1" "testvol" Examples.counting Examples.counting []).
  - exists tt. reflexivity.
  - reflexivity.
  - reflexivity.
Defined.

Lemma replicated_volume_selection_is_safe_witness :
  exists (d : gmap string val) (selected : list Brick) (r' : source),
    select_bricks_to_bring_offline Python2
      (Examples.plain_volume "Distributed-Replicate" (VStr "3")
         Examples.two_groups_of_three
         (Examples.quorum_info (VBool true) (VStr "fixed") (VStr "2")))
      "s1" "testvol" Examples.counting = inr (d, r') /\
    d !! "volume_bricks" = Some (VList selected) /\
    forall g, g ∈ Examples.two_groups_of_three ->
      let chosen := filter (.∈ g) selected in
      1 <= Z.of_nat (length chosen) <= 1 /\ NoDup chosen.
Proof.
  eapply (replicated_volume_selection_is_safe Python2
            (Examples.plain_volume "Distributed-Replicate" (VStr "3")
               Examples.two_groups_of_three
               (Examples.quorum_info (VBool true) (VStr "fixed") (VStr "2")))
            "s1" "testvol" _ _ (VBool true) (VStr "fixed") (VStr "2") 1
            Examples.counting).
  - exists tt. reflexivity.
  - reflexivity.
  - reflexivity.
  - right. reflexivity.
  - reflexivity.
  - reflexivity.
  - reflexivity.
  - reflexivity.
  - reflexivity.
  - reflexivity.
  - lia.
  - repeat constructor; simpl; lia.
  - apply (bool_decide_unpack _). vm_compute. reflexivity.
Defined.

End SelectionMore.

(** ** Detach status and the wait for a detach *)

Module TierFacts.

Import Py Random BrickLibs Host TieringOps MoreVocabulary.

Lemma with_tag_true (t : string) (e : element) :
  with_tag t e = true <-> tag e = t.
Proof. apply String.eqb_eq. Qed.

Lemma last_cons_match {A} (x : A) (l : list A) :
  last (x :: l) = match last l with Some y => Some y | None => Some x end.
Proof. apply last_cons. Qed.

Lemma filter_tag_cons (t : string) (e : element) (es : list element) :
  List.filter (with_tag t) (e :: es)
  = if String.eqb (tag e) t then e :: List.filter (with_tag t) es
    else List.filter (with_tag t) es.
Proof. reflexivity. Qed.

Lemma add_elements_spec (es : list element) :
  forall (ts : gmap string tier_value) (l : list (gmap string (option string))),
    ts !! "node" = Some (Nodes l) ->
    exists ts',
      add_elements ts es = inr ts' /\
      ts' !! "node"
      = Some (Nodes (l ++ map status_info (List.filter (with_tag "node") es))) /\
      ts' !! "aggregate"
      = match last (List.filter (with_tag "aggregate") es) with
        | Some e => Some (Info (status_info e))
        | None => ts !! "aggregate"
        end.
Proof.
  induction es as [|e es IH]; intros ts l Hnode.
  - exists ts. simpl. by rewrite app_nil_r.
  - cbn [add_elements]. rewrite !filter_tag_cons. unfold add_element.
    destruct (String.eqb (tag e) "node") eqn:Hn.
    + rewrite Hnode. apply String.eqb_eq in Hn. rewrite Hn. simpl.
      destruct (IH (<["node" := Nodes (l ++ [status_info e])]> ts)
                  (l ++ [status_info e])) as (ts' & -> & Hn' & Ha').
      { by rewrite lookup_insert_eq. }
      exists ts'. split; [done|]. split.
      * by rewrite Hn', <-app_assoc.
      * rewrite Ha'. by rewrite lookup_insert_ne.
    + destruct (String.eqb (tag e) "aggregate") eqn:Ha.
      * destruct (IH (<["aggregate" := Info (status_info e)]> ts) l)
          as (ts' & -> & Hn' & Ha').
        { by rewrite lookup_insert_ne. }
        exists ts'. split; [done|]. split; [done|].
        rewrite last_cons_match, Ha'.
        destruct (last _); [done|]. by rewrite lookup_insert_eq.
      * apply String.eqb_neq in Hn, Ha.
        destruct (IH (<[tag e := Text (text e)]> ts) l)
          as (ts' & -> & Hn' & Ha').
        { by rewrite lookup_insert_ne. }
        exists ts'. split; [done|]. split; [done|].
        rewrite Ha'. by rewrite lookup_insert_ne.
Qed.

Lemma tier_status_spec (root : element) :
  exists tier_status,
    tier_status_of root = inr tier_status /\
    tier_status !! "node"
    = Some (Nodes (map status_info
                     (List.filter (with_tag "node") (detach_elements root)))) /\
    tier_status !! "aggregate"
    = (fun e => Info (status_info e))
        <$> last (List.filter (with_tag "aggregate") (detach_elements root)).
Proof.
  destruct (add_elements_spec (detach_elements root)
              (<["node" := Nodes []]> ∅) []) as (ts & Hts & Hn & Ha).
  { by rewrite lookup_insert_eq. }
  exists ts. split; [done|]. split; [done|]. rewrite Ha.
  by destruct (last _).
Qed.

(** X20.  The dictionary built from a detach status document is always
    built (the loop never raises): its key ['node'] holds the list of the
    dictionaries of the [node] elements, in document order, and its key
    ['aggregate'], present exactly when the document has an [aggregate]
    element, holds the dictionary of the last one. *)
Theorem tier_status_of_document (root : element) :
  exists tier_status,
    tier_status_of root = inr tier_status /\
    tier_status !! "node"
    = Some (Nodes (map status_info
                     (List.filter (with_tag "node") (detach_elements root)))) /\
    tier_status !! "aggregate"
    = (fun e => Info (status_info e))
        <$> last (List.filter (with_tag "aggregate") (detach_elements root)).
Proof. exact (tier_status_spec root). Qed.

Lemma is_completed_false (status : option string) :
  status <> Some "completed"%string -> is_completed status = false.
Proof.
  intros Hne. destruct status as [s|]; [|done]. simpl.
  apply String.eqb_neq. congruence.
Qed.

Section Parser.

Variable XML : string -> option element.

Lemma detach_loop_step (fuel : nat) (mnode volname : string)
    (timeout count : Z) (h : host) :
  count < timeout ->
  detach_loop XML (S fuel) mnode volname timeout count h
  = match detach_poll XML h mnode volname (issued h) with
    | inl e => inl e
    | inr None =>
        inr (Some (Returned false), after (detach_polls mnode volname 1) 0 h)
    | inr (Some status) =>
        if is_completed status
        then inr (Some (Left true), after (detach_polls mnode volname 1) 0 h)
        else detach_loop XML fuel mnode volname timeout (count + 10)
               (after (detach_polls mnode volname 1) 10 h)
    end.
Proof.
  intros Hlt. simpl. destruct (Z.ltb_spec count timeout); [|lia].
  unfold bind at 1, get_detach_tier_status, bind at 1, run, detach_poll.
  assert (Hrun : {| rng := rng h;
                    issued := issued h ++ [(mnode, detach_status volname)];
                    elapsed := elapsed h; respond := respond h |}
                 = after (detach_polls mnode volname 1) 0 h).
  { unfold after. simpl. f_equal. lia. }
  rewrite Hrun.
  destruct (negb (fst (fst (respond h (issued h) mnode
                              (detach_status volname))) =? 0)); [done|].
  destruct (XML _) as [root|]; [|done].
  unfold bind at 1, lift. destruct (tier_status_of root) as [e|ts]; [done|].
  unfold ret at 1. unfold bind at 1.
  destruct (aggregate_status ts) as [e|status]; [done|].
  destruct (is_completed status); [done|].
  unfold bind, sleep. f_equal. unfold after. simpl. f_equal. lia.
Qed.

Lemma detach_loop_progress (mnode volname : string) (timeout : Z) (k : nat) :
  forall (fuel : nat) (count : Z) (h : host),
    (k = O \/ count + 10 * (Z.of_nat k - 1) < timeout) ->
    (forall i, (i < k)%nat ->
       exists status,
         detach_poll XML h mnode volname
           (issued h ++ detach_polls mnode volname i) = inr (Some status) /\
         status <> Some "completed"%string) ->
    detach_loop XML (k + fuel) mnode volname timeout count h
    = detach_loop XML fuel mnode volname timeout (count + 10 * Z.of_nat k)
        (after (detach_polls mnode volname k) (10 * Z.of_nat k) h).
Proof.
  induction k as [|k IH]; intros fuel count h Hk Hpolls.
  - simpl. rewrite Z.add_0_r. f_equal. unfold after. destruct h. simpl.
    f_equal; [by rewrite app_nil_r|lia].
  - destruct Hk as [?|Hk]; [lia|].
    replace (S k + fuel)%nat with (S (k + fuel)) by lia.
    rewrite detach_loop_step by lia.
    destruct (Hpolls O ltac:(lia)) as (status & Hpoll & Hne).
    simpl in Hpoll. rewrite app_nil_r in Hpoll. rewrite Hpoll.
    rewrite (is_completed_false status Hne).
    rewrite IH.
    + f_equal; [lia|]. unfold after, detach_polls. simpl.
      f_equal; [by rewrite <-app_assoc|lia].
    + destruct k; [by left|right; lia].
    + intros i Hi. destruct (Hpolls (S i) ltac:(lia)) as (st & Hst & Hst').
      exists st. split; [|done]. rewrite <-Hst.
      unfold detach_poll, after, detach_polls. simpl.
      by rewrite <-app_assoc.
Qed.

(** X21.  When the first [k] detach status queries report a status other
    than ['completed'] and the next one, still within the timeout
    ([10 * k < timeout]), reports ['completed'],
    [wait_for_detach_tier_to_complete] returns [True] after [k + 1]
    queries and [10 * k] seconds of sleep. *)
Theorem detach_wait_returns_when_completed (mnode volname : string)
    (timeout : Z) (k : nat) (h : host) :
  10 * Z.of_nat k < timeout ->
  (forall i, (i < k)%nat ->
     exists status,
       detach_poll XML h mnode volname
         (issued h ++ detach_polls mnode volname i) = inr (Some status) /\
       status <> Some "completed"%string) ->
  detach_poll XML h mnode volname (issued h ++ detach_polls mnode volname k)
  = inr (Some (Some "completed"%string)) ->
  wait_for_detach_tier_to_complete XML mnode volname timeout h
  = inr (Some true,
         after (detach_polls mnode volname (S k)) (10 * Z.of_nat k) h).
Proof.
  intros Hlt Hpolls Hdone. unfold wait_for_detach_tier_to_complete, bind.
  replace (S (Z.to_nat timeout)) with (k + S (Z.to_nat timeout - k))%nat
    by lia.
  rewrite detach_loop_progress
    by first [done | destruct k; [by left|right; lia]].
  rewrite detach_loop_step by lia.
  change (issued (after (detach_polls mnode volname k) (10 * Z.of_nat k) h))
    with (issued h ++ detach_polls mnode volname k).
  change (detach_poll XML (after ?c ?s h)) with (detach_poll XML h).
  rewrite Hdone. simpl. unfold ret, after, detach_polls. simpl.
  do 3 f_equal; [|lia].
  rewrite <-app_assoc. f_equal. symmetry. apply replicate_S_end.
Qed.

(** X22.  When a detach status query fails (the command fails or its
    output does not parse) after [k] queries that reported a status other
    than ['completed'], [wait_for_detach_tier_to_complete] returns [False]
    at once: the query is not repeated and no sleep follows it. *)
Theorem detach_wait_stops_at_failed_query (mnode volname : string)
    (timeout : Z) (k : nat) (h : host) :
  10 * Z.of_nat k < timeout ->
  (forall i, (i < k)%nat ->
     exists status,
       detach_poll XML h mnode volname
         (issued h ++ detach_polls mnode volname i) = inr (Some status) /\
       status <> Some "completed"%string) ->
  detach_poll XML h mnode volname (issued h ++ detach_polls mnode volname k)
  = inr None ->
  wait_for_detach_tier_to_complete XML mnode volname timeout h
  = inr (Some false,
         after (detach_polls mnode volname (S k)) (10 * Z.of_nat k) h).
Proof.
  intros Hlt Hpolls Hfail. unfold wait_for_detach_tier_to_complete, bind.
  replace (S (Z.to_nat timeout)) with (k + S (Z.to_nat timeout - k))%nat
    by lia.
  rewrite detach_loop_progress
    by first [done | destruct k; [by left|right; lia]].
  rewrite detach_loop_step by lia.
  change (issued (after (detach_polls mnode volname k) (10 * Z.of_nat k) h))
    with (issued h ++ detach_polls mnode volname k).
  change (detach_poll XML (after ?c ?s h)) with (detach_poll XML h).
  rewrite Hfail. simpl. unfold ret, after, detach_polls. simpl.
  do 3 f_equal; [|lia].
  rewrite <-app_assoc. f_equal. symmetry. apply replicate_S_end.
Qed.

(** X23.  When every detach status query reports a status other than
    ['completed'], [wait_for_detach_tier_to_complete] returns [False]
    after [n] queries and [10 * n] seconds of sleep, [n] being the ceiling
    of [timeout / 10]. *)
Theorem detach_wait_times_out (mnode volname : string) (timeout : Z)
    (h : host) :
  0 <= timeout ->
  (forall i,
     exists status,
       detach_poll XML h mnode volname
         (issued h ++ detach_polls mnode volname i) = inr (Some status) /\
       status <> Some "completed"%string) ->
  exists n : nat,
    10 * (Z.of_nat n - 1) < timeout <= 10 * Z.of_nat n /\
    wait_for_detach_tier_to_complete XML mnode volname timeout h
    = inr (Some false,
           after (detach_polls mnode volname n) (10 * Z.of_nat n) h).
Proof.
  intros Ht Hpolls. exists (Z.to_nat ((timeout + 9) / 10)).
  pose proof (Z.div_mod (timeout + 9) 10 ltac:(lia)).
  pose proof (Z.mod_pos_bound (timeout + 9) 10 ltac:(lia)).
  assert (0 <= (timeout + 9) / 10) by (apply Z.div_pos; lia).
  split; [lia|].
  unfold wait_for_detach_tier_to_complete, bind.
  replace (S (Z.to_nat timeout))
    with (Z.to_nat ((timeout + 9) / 10)
          + S (Z.to_nat timeout - Z.to_nat ((timeout + 9) / 10)))%nat by lia.
  rewrite detach_loop_progress; [| |by intros i _].
  - simpl.
    destruct (Z.ltb_spec (0 + 10 * Z.of_nat (Z.to_nat ((timeout + 9) / 10)))
                timeout); [lia|done].
  - destruct (Z.to_nat ((timeout + 9) / 10)) eqn:Hn; [by left|right; lia].
Qed.

(** X24.  When the detach status document has no [aggregate] element,
    [wait_for_detach_tier_to_complete] raises [KeyError] at the first
    query instead of returning. *)
Theorem detach_wait_needs_aggregate (mnode volname : string) (timeout : Z)
    (h : host) (root : element) :
  0 < timeout ->
  fst (fst (respond h (issued h) mnode (detach_status volname))) = 0 ->
  XML (snd (fst (respond h (issued h) mnode (detach_status volname))))
  = Some root ->
  List.filter (with_tag "aggregate") (detach_elements root) = [] ->
  wait_for_detach_tier_to_complete XML mnode volname timeout h
  = inl KeyError.
Proof.
  intros Ht Hret Hroot Hnone. unfold wait_for_detach_tier_to_complete, bind.
  rewrite detach_loop_step by lia. unfold detach_poll.
  rewrite Hret, Hroot. simpl.
  destruct (tier_status_spec root) as (ts & -> & _ & Ha).
  rewrite Hnone in Ha. unfold aggregate_status. by rewrite Ha.
Qed.

End Parser.

Lemma detach_wait_returns_when_completed_witness :
  wait_for_detach_tier_to_complete MoreExamples.toy_xml "s1" "testvol" 300
    (MoreExamples.fresh_host MoreExamples.completes_at_third)
  = inr (Some true,
         after (detach_polls "s1" "testvol" 3) (10 * Z.of_nat 2)
           (MoreExamples.fresh_host MoreExamples.completes_at_third)).
Proof.
  apply (detach_wait_returns_when_completed MoreExamples.toy_xml
           "s1" "testvol" 300 2
           (MoreExamples.fresh_host MoreExamples.completes_at_third)).
  - simpl. lia.
  - intros i Hi. exists (Some "in progress"%string).
    assert (i = 0 \/ i = 1)%nat as [-> | ->] by lia;
      (split; [reflexivity|discriminate]).
  - reflexivity.
Defined.

Lemma detach_wait_stops_at_failed_query_witness :
  wait_for_detach_tier_to_complete MoreExamples.toy_xml "s1" "testvol" 300
    (MoreExamples.fresh_host MoreExamples.fails_at_third)
  = inr (Some false,
         after (detach_polls "s1" "testvol" 3) (10 * Z.of_nat 2)
           (MoreExamples.fresh_host MoreExamples.fails_at_third)).
Proof.
  apply (detach_wait_stops_at_failed_query MoreExamples.toy_xml
           "s1" "testvol" 300 2
           (MoreExamples.fresh_host MoreExamples.fails_at_third)).
  - simpl. lia.
  - intros i Hi. exists (Some "in progress"%string).
    assert (i = 0 \/ i = 1)%nat as [-> | ->] by lia;
      (split; [reflexivity|discriminate]).
  - reflexivity.
Defined.

Lemma detach_wait_times_out_witness :
  exists n : nat,
    10 * (Z.of_nat n - 1) < 25 <= 10 * Z.of_nat n /\
    wait_for_detach_tier_to_complete MoreExamples.toy_xml "s1" "testvol" 25
      (MoreExamples.fresh_host MoreExamples.never_completes)
    = inr (Some false,
           after (detach_polls "s1" "testvol" n) (10 * Z.of_nat n)
             (MoreExamples.fresh_host MoreExamples.never_completes)).
Proof.
  apply (detach_wait_times_out MoreExamples.toy_xml "s1" "testvol" 25
           (MoreExamples.fresh_host MoreExamples.never_completes)).
  - lia.
  - intros i. exists (Some "in progress"%string).
    split; [reflexivity|discriminate].
Defined.

Lemma detach_wait_needs_aggregate_witness :
  wait_for_detach_tier_to_complete MoreExamples.toy_xml "s1" "testvol" 300
    (MoreExamples.fresh_host (fun _ => (0, "bare", "")%string))
  = inl KeyError.
Proof.
  eapply (detach_wait_needs_aggregate MoreExamples.toy_xml "s1" "testvol" 300
            (MoreExamples.fresh_host (fun _ => (0, "bare", "")%string))).
  - lia.
  - reflexivity.
  - reflexivity.
  - reflexivity.
Defined.

Example status_document_dictionary :
  tier_status_of (MoreExamples.status_document "completed")
  = inr (<["aggregate" := Info {[ "statusStr"%string := Some "completed"%string ]}]>
           (<["node" := Nodes [<["statusStr"%string := Some "completed"%string]>
                                  {[ "nodeName"%string := Some "localhost"%string ]}]]>
              (<["nodeCount" := Text (Some "1"%string)]>
                 (<["node" := Nodes []]> ∅)))).
Proof. vm_compute. reflexivity. Qed.

Lemma strip_prefix_all (f : ascii -> bool) (s : string) :
  all_chars f (lstrip_with f s) = all_chars f s.
Proof.
  induction s as [|ch s IH]; [done|]. simpl.
  destruct (f ch) eqn:Hf; [done|]. simpl. by rewrite Hf.
Qed.

Lemma rstrip_with_empty (f : ascii -> bool) (s : string) :
  rstrip_with f s = EmptyString <-> all_chars f s = true.
Proof.
  induction s as [|ch s IH]; [done|]. simpl.
  destruct (rstrip_with f s) as [|c' rest].
  - destruct IH as [IH _]. rewrite IH by done. rewrite andb_true_r.
    by destruct (f ch).
  - split; [discriminate|]. intros [_ Hs]%andb_true_iff.
    destruct IH as [_ IH]. by specialize (IH Hs).
Qed.

Lemma strip_with_empty (f : ascii -> bool) (s : string) :
  strip_with f s = EmptyString <-> all_chars f s = true.
Proof.
  unfold strip_with. by rewrite rstrip_with_empty, strip_prefix_all.
Qed.

(** X25.  [is_tier_process_running] answers [False] only when the [ps]
    command succeeds and prints nothing but newlines; when the command
    itself fails it answers [True].  One command is issued. *)
Theorem tier_process_report (mnode volname : string) (h : host) :
  is_tier_process_running mnode volname h
  = inr (negb ((fst (fst (respond h (issued h) mnode (tier_pid volname))) =? 0)
               && all_chars (Ascii.eqb newline)
                    (snd (fst (respond h (issued h) mnode
                                 (tier_pid volname))))),
         after [(mnode, tier_pid volname)] 0 h).
Proof.
  unfold is_tier_process_running, bind at 1, get_tier_pid, bind at 1, run.
  assert (Hrun : {| rng := rng h;
                    issued := issued h ++ [(mnode, tier_pid volname)];
                    elapsed := elapsed h; respond := respond h |}
                 = after [(mnode, tier_pid volname)] 0 h).
  { unfold after. f_equal. lia. }
  rewrite Hrun.
  destruct (fst (fst (respond h (issued h) mnode (tier_pid volname))) =? 0);
    [|done].
  simpl. unfold ret at 1.
  pose proof (strip_with_empty (Ascii.eqb newline)
                (snd (fst (respond h (issued h) mnode (tier_pid volname)))))
    as Hstrip.
  fold strip_newlines in Hstrip.
  destruct (strip_newlines _) as [|c rest].
  - destruct Hstrip as [-> _]; done.
  - destruct (all_chars _ _); [|done].
    destruct Hstrip as [_ Hstrip]. by specialize (Hstrip eq_refl).
Qed.

End TierFacts.

(** ** The commands issued for the bricks *)

Module CommandFacts.

Import Py Random BrickLibs Host BrickCommands MoreVocabulary.

Lemma brick_parts_split (b : Brick) (node path : string) :
  brick_parts b = Some (node, path) -> split_colon b = [node; path].
Proof.
  unfold brick_parts.
  destruct (split_colon b) as [|n [|p [|? ?]]]; try discriminate.
  by intros [= -> ->].
Qed.



Lemma node_list_loop (l : list Brick) :
  forall (acc : list string) (h : host),
    Forall (fun b => is_Some (brick_parts b)) l ->
    for_each l node_of acc h
    = inr (acc ++ omap (fun b => fst <$> brick_parts b) l, h).
Proof.
  induction l as [|b l IH]; intros acc h Hwf.
  - simpl. by rewrite app_nil_r.
  - apply Forall_cons in Hwf as [[[node path] Hb] Hwf].
    cbn [for_each omap list_omap]. unfold bind at 1, node_of at 1.
    rewrite (brick_parts_split b node path Hb), Hb. unfold ret at 1.
    rewrite IH by done. simpl. by rewrite <-app_assoc.
Qed.

Lemma choice_single {A} (a : A) (r : source) :
  choice [a] r = inr (a, {| draws := draws r; cursor := S (cursor r) |}).
Proof.
  unfold choice, bind, randbelow. cbn [length]. by rewrite Nat.mod_1_r.
Qed.


Section Multiplexing.

Variable is_brick_mux_enabled : string -> bool.

(** X27.  With an empty list of bricks [bring_bricks_offline] raises
    [IndexError] (it reads the node of the first brick), whatever the
    methods, the volume, the host and the answer on brick multiplexing. *)
Theorem no_brick_to_bring_offline_raises (volname : string)
    (methods : option (string + list string)) (h : host) :
  bring_bricks_offline is_brick_mux_enabled volname (inr []) methods h
  = inl IndexError.
Proof. reflexivity. Qed.


(** X29.  Without brick multiplexing, a single method other than
    ['service_kill'] makes [bring_bricks_offline] return [False] at the
    first brick: no command is issued. *)
Theorem unknown_offline_method_returns_false (volname method : string)
    (b : Brick) (bs : list Brick) (node path : string) (h : host) :
  brick_parts b = Some (node, path) ->
  is_brick_mux_enabled node = false ->
  Forall (fun b => is_Some (brick_parts b)) bs ->
  method <> "service_kill"%string ->
  bring_bricks_offline is_brick_mux_enabled volname (inr (b :: bs))
    (Some (inl method)) h
  = inr (false, drawn 1 h).
Proof.
  intros Hb Hmux Hwf Hne. unfold bring_bricks_offline, bind at 1.
  assert (Hall : Forall (fun b => is_Some (brick_parts b)) (b :: bs)).
  { constructor; [by eexists|done]. }
  rewrite node_list_loop by done.
  assert (Hn : ([] ++ omap (fun b => fst <$> brick_parts b) (b :: bs)) !! 0%nat
               = Some node) by (simpl; by rewrite Hb).
  rewrite Hn, Hmux. unfold bind at 1. cbn [kill_each].
  unfold bind at 1, draw at 1. rewrite choice_single.
  apply String.eqb_neq in Hne. rewrite Hne.
  unfold ret, drawn. simpl. do 3 f_equal. f_equal. lia.
Qed.

(** X30.  Without brick multiplexing and with the single method
    ['volume_start_force'], [bring_bricks_online] starts the volume with
    force once: when that command succeeds it leaves the loop, whatever
    the number of bricks, sleeps 30 seconds and returns [True]. *)
Theorem volume_start_force_runs_once (mnode volname : string) (b : Brick)
    (bs : list Brick) (h : host) :
  is_brick_mux_enabled mnode = false ->
  fst (fst (respond h (issued h) mnode (start_force volname))) = 0 ->
  bring_bricks_online is_brick_mux_enabled mnode volname (b :: bs)
    (Some (inl "volume_start_force"%string)) h
  = inr (true, after [(mnode, start_force volname)] 30 (drawn 1 h)).
Proof.
  intros Hmux Hret. unfold bring_bricks_online, bind at 1. cbn [online_each].
  unfold bind at 1, draw at 1. rewrite choice_single, Hmux.
  change (String.eqb "volume_start_force" "glusterd_restart") with false.
  rewrite String.eqb_refl. cbn iota.
  unfold bind at 1, run at 1. cbn [issued respond rng elapsed].
  rewrite Hret. simpl. unfold ret, after, drawn, bind, sleep. simpl.
  do 3 f_equal. f_equal. lia.
Qed.

End Multiplexing.



Lemma unknown_offline_method_returns_false_witness :
  bring_bricks_offline (fun _ => false) "testvol"
    (inr ["s1:/bricks/b1"; "s2:/bricks/b2"]%string)
    (Some (inl "node_reboot"%string))
    (MoreExamples.fresh_host (fun _ => (0, "", "")%string))
  = inr (false,
         drawn 1 (MoreExamples.fresh_host (fun _ => (0, "", "")%string))).
Proof.
  apply (unknown_offline_method_returns_false (fun _ => false)
           "testvol" "node_reboot" "s1:/bricks/b1" ["s2:/bricks/b2"%string]
           "s1" "/bricks/b1"
           (MoreExamples.fresh_host (fun _ => (0, "", "")%string))).
  - reflexivity.
  - reflexivity.
  - repeat constructor; by eexists.
  - discriminate.
Defined.

Lemma volume_start_force_runs_once_witness :
  bring_bricks_online (fun _ => false) "s1" "testvol"
    ["s1:/bricks/b1"; "s2:/bricks/b2"]%string
    (Some (inl "volume_start_force"%string))
    (MoreExamples.fresh_host (fun _ => (0, "", "")%string))
  = inr (true,
         after [("s1", "gluster volume start testvol force")]%string 30
           (drawn 1 (MoreExamples.fresh_host (fun _ => (0, "", "")%string)))).
Proof.
  apply (volume_start_force_runs_once (fun _ => false) "s1" "testvol"
           "s1:/bricks/b1" ["s2:/bricks/b2"%string]
           (MoreExamples.fresh_host (fun _ => (0, "", "")%string))).
  - reflexivity.
  - reflexivity.
Defined.

Example kill_command_of_brick :
  kill_of "s1:/bricks/b1"
  = [("s1", "pid=`ps -ef | grep -ve 'grep' | grep -e 's1-bricks-b1.pid' | awk '{print $2}'` && kill -15 $pid || kill -9 $pid")]%string.
Proof. reflexivity. Qed.

End CommandFacts.
